(** * Zulip update announcements: per-organization rollout of a levelled catalog

    A shallow embedding of [zerver/lib/zulip_update_announcements.py].
    Python integers are [Z]; timestamps are [Z] microseconds; Django tables
    are lists in primary-key order; exceptions and database writes are
    threaded through a small state-and-exception monad with transaction
    rollback.  The clock is a field of the world: [timezone_now()] reads
    it, and it is the environment, not a run, that advances it. *)

From Stdlib Require Import ZArith List String Bool Lia.
Import ListNotations.
Local Open Scope Z_scope.

(** ** Python exceptions and list indexing *)

Inductive Exn : Set :=
| AssertionError
| IndexError
| DoesNotExist
| DatabaseError
| TransportFailure.

(** Pure code that may raise. *)
Definition E (A : Type) : Type := (Exn + A)%type.

Definition E_bind {A B : Type} (x : E A) (k : A -> E B) : E B :=
  match x with
  | inl e => inl e
  | inr a => k a
  end.

(** [l[i]] on a Python list: a negative index counts from the end, and an
    index outside [-len, len) raises [IndexError]. *)
Definition py_getitem {A : Type} (l : list A) (i : Z) : E A :=
  let n := Z.of_nat (List.length l) in
  let j := if i <? 0 then i + n else i in
  if (0 <=? j) && (j <? n) then
    match nth_error l (Z.to_nat j) with
    | Some a => inr a
    | None => inl IndexError
    end
  else inl IndexError.

(** ** Data model *)

Record ZulipUpdateAnnouncement : Set := {
  level : Z;
  message : string
}.

Record UserProfile : Set := { user_id : Z }.

Record Stream : Set := {
  stream_name : string;
  recipient_id : option Z
}.

Record Realm : Set := {
  realm_id : Z;
  string_id : string;
  deactivated : bool;
  default_language : string;
  zulip_update_announcements_level : option Z;
  zulip_update_announcements_stream : option Stream
}.

Definition with_level (realm : Realm) (lvl : option Z) : Realm :=
  {| realm_id := realm_id realm;
     string_id := string_id realm;
     deactivated := deactivated realm;
     default_language := default_language realm;
     zulip_update_announcements_level := lvl;
     zulip_update_announcements_stream := zulip_update_announcements_stream realm |}.

Inductive Audience : Set :=
| ToStream (stream : Stream) (topic_name : string)
| ToUsers (recipient_users : list UserProfile).

Record SendMessageRequest : Set := {
  request_sender : UserProfile;
  request_audience : Audience;
  request_content : string
}.

Record Message : Set := {
  message_id : Z;
  message_request : SendMessageRequest
}.

Inductive EventType : Set :=
| REALM_PROPERTY_CHANGED
| OTHER_EVENT (code : Z).

(** The [extra_data] JSON of an audit row: [old_value = None] is JSON null. *)
Record ExtraData : Set := {
  OLD_VALUE : option Z;
  NEW_VALUE : Z;
  property : string;
  zulip_update_announcements_message_ids : list Z
}.

Record RealmAuditLog : Set := {
  audit_realm : Z;
  event_type : EventType;
  event_time : Z;
  extra_data : ExtraData
}.

Definition zulip_update_announcements : list ZulipUpdateAnnouncement :=
  [ {| level := 1;
       message := "
Zulip is introducing **Zulip updates**! To help you learn about new features and
configuration options, this topic will receive messages about important changes in Zulip.

You can read these update messages whenever it's convenient, or [mute](/help/mute-a-topic)
this topic if you are not interested. If your organization does not want to receive these
announcements, they can be disabled. [Learn more](/help/configure-automated-notices#zulip-update-announcements).
" |}
  ; {| level := 2;
       message := "
**Web and desktop updates**

- When you paste content into the compose box, Zulip will now do its best to preserve
the formatting, including links, bulleted lists, bold, italics, and more.
Pasting as plain text remains an alternative option. [Learn
more](/help/keyboard-shortcuts#the-basics).
- To [quote and reply](/help/quote-and-reply) to part of a message, you can
now select the part that you want to quote.
- You can now hide the user list in the right sidebar to reduce distraction.
[Learn more](/help/user-list).
" |}
  ; {| level := 3;
       message := "
- The **All messages** view has been renamed to **Combined feed**.
[Learn more](/help/combined-feed).

**Web and desktop updates**
- When you start composing, the most recently edited draft for the conversation
you are composing to now automatically appears in the compose box. You can
always save a draft and start a new message using the **send options** menu next
to the **Send** button. [Learn more](/help/view-and-edit-your-message-drafts#save-a-draft-and-start-a-new-message).
- If you'd prefer not to see notifications when others type, you can now disable
them. [Learn more](/help/typing-notifications).
" |}
  ; {| level := 4;
       message := "
- To simplify Zulip for new users, **Streams** have been renamed to **Channels**.
The functionality remains exactly the same, and bots do not need
to be updated. [Learn more](/help/introduction-to-channels).

- Topics and messages now load much faster when you open the web or desktop app.
" |}
  ; {| level := 5;
       message := "
**Web and desktop updates**
- Use the new **Reactions** view to see how others have reacted to your
messages. [Learn more](/help/emoji-reactions#view-your-messages-with-reactions).
- For a more focused reading experience, you can now hide the
[left](/help/left-sidebar) and [right](/help/user-list)
sidebars any time using the buttons in the top navigation bar. When the left
sidebar is hidden, use [keyboard
navigation](/help/keyboard-shortcuts#navigation) to jump to the next unread
topic or go back to your [home view](/help/configure-home-view).
- You can now search for messages in topics you
  [follow](/help/follow-a-topic) using the `is:followed` filter. [Learn
  more](/help/search-for-messages#search-by-message-status).
" |}
  ; {| level := 6;
       message := "
**Web and desktop updates**
- You can now configure whether channel links in the left sidebar go to the most
recent topic (default option), or to the channel feed. With the default
configuration, you can access the feed from the channel menu.
[Learn more](/help/channel-feed).
- You can also [configure](/help/mastering-the-compose-box#automatically-go-to-conversation-where-you-sent-a-message) whether Zulip
automatically takes you to the conversation to which you sent a message, if you
aren't already viewing it.
- You can now [filter](/help/direct-messages#find-a-direct-message-conversation) direct message
conversations in the left sidebar to conversations that include a specific
person.
" |} ].

(** ** The world: database tables, clock and error log *)

Record World : Set := {
  realms : list Realm;
  audit_logs : list RealmAuditLog;
  messages : list Message;
  now : Z;
  log : list Exn
}.

Definition set_realms (rs : list Realm) (w : World) : World :=
  {| realms := rs; audit_logs := audit_logs w; messages := messages w;
     now := now w; log := log w |}.

Definition set_audit_logs (al : list RealmAuditLog) (w : World) : World :=
  {| realms := realms w; audit_logs := al; messages := messages w;
     now := now w; log := log w |}.

Definition set_messages (ms : list Message) (w : World) : World :=
  {| realms := realms w; audit_logs := audit_logs w; messages := ms;
     now := now w; log := log w |}.

Definition set_log (l : list Exn) (w : World) : World :=
  {| realms := realms w; audit_logs := audit_logs w; messages := messages w;
     now := now w; log := l |}.

(** ** State-and-exception monad *)

Inductive Outcome (A : Type) : Type :=
| Returned (a : A) (w : World)
| Raised (e : Exn) (w : World).
Arguments Returned {A} a w.
Arguments Raised {A} e w.

Definition M (A : Type) : Type := World -> Outcome A.

Definition ret {A : Type} (a : A) : M A := fun w => Returned a w.

Definition raise {A : Type} (e : Exn) : M A := fun w => Raised e w.

Definition bind {A B : Type} (c : M A) (k : A -> M B) : M B :=
  fun w =>
    match c w with
    | Returned a w' => k a w'
    | Raised e w' => Raised e w'
    end.

Definition lift {A : Type} (x : E A) : M A :=
  fun w =>
    match x with
    | inl e => Raised e w
    | inr a => Returned a w
    end.

Declare Scope py_scope.
Delimit Scope py_scope with py.
Notation "x <- c ;; k" := (bind c (fun x => k))
  (at level 61, c at next level, right associativity) : py_scope.
Notation "c ;; k" := (bind c (fun _ => k))
  (at level 61, right associativity) : py_scope.
Notation "x <~ c ;; k" := (E_bind c (fun x => k))
  (at level 61, c at next level, right associativity) : py_scope.
Local Open Scope py_scope.

(** [assert cond] *)
Definition assert_ (cond : bool) : M unit :=
  if cond then ret tt else raise AssertionError.

(** [try: body except Exception as e: handler(e)] *)
Definition try_except (body : M unit) (handler : Exn -> M unit) : M unit :=
  fun w =>
    match body w with
    | Returned a w' => Returned a w'
    | Raised e w' => handler e w'
    end.

(** [logging.exception(e)] *)
Definition logging_exception (e : Exn) : M unit :=
  fun w => Returned tt (set_log (log w ++ [e]) w).

(** What an aborted transaction leaves behind: the tables as they were when
    the block was entered; the clock and the log are not transactional. *)
Definition rollback (saved current : World) : World :=
  {| realms := realms saved; audit_logs := audit_logs saved;
     messages := messages saved; now := now current; log := log current |}.

(** [@transaction.atomic(savepoint=False)] as the outermost block. *)
Definition atomic {A : Type} (body : M A) : M A :=
  fun w =>
    match body w with
    | Returned a w' => Returned a w'
    | Raised e w' => Raised e (rollback w w')
    end.

(** [timezone_now()] *)
Definition timezone_now : M Z := fun w => Returned (now w) w.

(** [timedelta(days=days)], in microseconds.  Python builds the value for
    [-999999999 <= days <= 999999999] and raises [OverflowError] outside;
    this file calls it with 1 and 7 only. *)
Definition timedelta (days : Z) : Z := days * 86400000000.

(** [realm.refresh_from_db()]: the row with the object's primary key. *)
Definition refresh_from_db (realm : Realm) : M Realm :=
  fun w =>
    match find (fun r => realm_id r =? realm_id realm) (realms w) with
    | Some fresh => Returned fresh w
    | None => Raised DoesNotExist w
    end.

(** [realm.save(update_fields=["zulip_update_announcements_level"])]: only
    that column of the row with the object's primary key is written. *)
Definition save_zulip_update_announcements_level (realm : Realm) : M unit :=
  fun w =>
    if existsb (fun r => realm_id r =? realm_id realm) (realms w) then
      Returned tt
        (set_realms
           (map (fun r =>
                   if realm_id r =? realm_id realm
                   then with_level r (zulip_update_announcements_level realm)
                   else r)
                (realms w))
           w)
    else Raised DatabaseError w.

(** [RealmAuditLog.objects.create(...)] *)
Definition RealmAuditLog_create (row : RealmAuditLog) : M unit :=
  fun w => Returned tt (set_audit_logs (audit_logs w ++ [row]) w).

(** ** External collaborators

    Code of other modules that this file calls: settings, translation,
    message preparation, the topic query and the message transport. *)

Class Collaborators : Type := {
  (** [settings.SYSTEM_BOT_REALM] *)
  SYSTEM_BOT_REALM : string;
  (** [zerver.lib.message.remove_single_newlines] *)
  remove_single_newlines : string -> string;
  (** [get_system_bot(settings.NOTIFICATION_BOT, realm.id)] *)
  get_system_bot : Z -> UserProfile;
  (** [list(realm.get_human_admin_users())] *)
  get_human_admin_users : Realm -> list UserProfile;
  (** [str(realm.ZULIP_UPDATE_ANNOUNCEMENTS_TOPIC_NAME)] under
      [override_language(language)] *)
  ZULIP_UPDATE_ANNOUNCEMENTS_TOPIC_NAME : string -> string;
  (** [internal_prep_stream_message(sender, stream, topic_name, content)] *)
  internal_prep_stream_message :
    UserProfile -> Stream -> string -> string -> option SendMessageRequest;
  (** [internal_prep_group_direct_message(realm, sender, content,
      recipient_users=...)] *)
  internal_prep_group_direct_message :
    Realm -> UserProfile -> string -> list UserProfile -> option SendMessageRequest;
  (** [messages_for_topic(realm_id, recipient_id, topic_name).exists()] on
      the message table *)
  messages_for_topic_exists : list Message -> Z -> Z -> string -> bool;
  (** The transport's verdict on a batch, given the message table: [None]
      when the whole batch is stored, [Some k] when the send fails after
      the first [k] messages were stored. *)
  transport_failure : list SendMessageRequest -> list Message -> option nat
}.

(** ** The program *)

Section Program.
Context `{Collaborators}.

Definition get_latest_zulip_update_announcements_level : E Z :=
  latest_zulip_update_announcement <~ py_getitem zulip_update_announcements (-1) ;;
  inr (level latest_zulip_update_announcement).

Definition get_zulip_update_announcements_message_for_level (level : Z) : E string :=
  zulip_update_announcement <~ py_getitem zulip_update_announcements (level - 1) ;;
  inr (remove_single_newlines (message zulip_update_announcement)).

(** The [Realm.objects.filter(...).exclude(...)] query, evaluated when the
    [for] loop starts iterating. *)
Definition get_realms_behind_zulip_update_announcements_level (level : Z) : M (list Realm) :=
  fun w =>
    Returned
      (filter
         (fun realm =>
            match zulip_update_announcements_level realm with
            | None => true
            | Some l => l <? level
            end
            && negb (deactivated realm)
            && negb (String.eqb (string_id realm) SYSTEM_BOT_REALM))
         (realms w))
      w.

Definition internal_prep_group_direct_message_for_old_realm
    (realm : Realm) (sender : UserProfile) : option SendMessageRequest :=
  let administrators := get_human_admin_users realm in
  let topic_name := ZULIP_UPDATE_ANNOUNCEMENTS_TOPIC_NAME (default_language realm) in
  let content :=
    match zulip_update_announcements_stream realm with
    | None =>
        "
Zulip now supports [configuring](/#organization/organization-settings) a stream where Zulip will
send [updates](/help/configure-automated-notices#zulip-update-announcements) about new Zulip features.
These notifications are currently turned off in your organization. If you configure
a stream within one week, your organization will not miss any update messages.
"%string
    | Some stream =>
        ("
Starting tomorrow, users in your organization will receive [updates](/help/configure-automated-notices#zulip-update-announcements)
about new Zulip features in #**"
         ++ stream_name stream ++ ">" ++ topic_name ++
         "**.

If you like, you can [configure](/#organization/organization-settings) a different stream for
these updates (and [move](/help/move-content-to-another-channel) any updates sent before the
configuration change), or [turn this feature off](/#organization/organization-settings) altogether.
")%string
    end in
  internal_prep_group_direct_message
    realm sender (remove_single_newlines content) administrators.

Definition is_level_none_to_initial (realm : Realm) (row : RealmAuditLog) : bool :=
  (audit_realm row =? realm_id realm)
  && match event_type row with REALM_PROPERTY_CHANGED => true | _ => false end
  && match OLD_VALUE (extra_data row) with None => true | Some _ => false end
  && String.eqb (property (extra_data row)) "zulip_update_announcements_level".

(** [.filter(...).first()]: the matching row with the least primary key. *)
Definition get_level_none_to_initial_auditlog (realm : Realm) : M (option RealmAuditLog) :=
  fun w => Returned (find (is_level_none_to_initial realm) (audit_logs w)) w.

Definition is_group_direct_message_sent_to_admins_within_days
    (realm : Realm) (days : Z) : M bool :=
  level_none_to_initial_auditlog <- get_level_none_to_initial_auditlog realm ;;
  match level_none_to_initial_auditlog with
  | None => raise AssertionError
  | Some auditlog =>
      let group_direct_message_sent_on := event_time auditlog in
      t <- timezone_now ;;
      ret (t - group_direct_message_sent_on <? timedelta days)
  end.

(** The [while current_level < latest_level] loop.  [fuel] bounds the
    number of iterations; the caller passes [latest_level - current_level],
    which is exactly how often the guard holds. *)
Fixpoint stream_messages_loop (fuel : nat) (current_level latest_level : Z)
    (sender : UserProfile) (stream : Stream) (topic_name : string)
    (message_requests : list (option SendMessageRequest))
    : E (list (option SendMessageRequest)) :=
  match fuel with
  | O => inr message_requests
  | S fuel' =>
      if current_level <? latest_level then
        content <~ get_zulip_update_announcements_message_for_level (current_level + 1) ;;
        stream_messages_loop fuel' (current_level + 1) latest_level sender stream topic_name
          (message_requests
           ++ [internal_prep_stream_message sender stream topic_name content])
      else inr message_requests
  end.

Definition internal_prep_zulip_update_announcements_stream_messages
    (current_level latest_level : Z) (sender : UserProfile) (realm : Realm)
    : E (list (option SendMessageRequest)) :=
  match zulip_update_announcements_stream realm with
  | None => inl AssertionError
  | Some stream =>
      let topic_name := ZULIP_UPDATE_ANNOUNCEMENTS_TOPIC_NAME (default_language realm) in
      stream_messages_loop (Z.to_nat (latest_level - current_level))
        current_level latest_level sender stream topic_name []
  end.

(** Requests that failed preparation are [None]; the transport skips them. *)
Fixpoint prepared (reqs : list (option SendMessageRequest)) : list SendMessageRequest :=
  match reqs with
  | [] => []
  | Some r :: rest => r :: prepared rest
  | None :: rest => prepared rest
  end.

Definition next_message_id (table : list Message) : Z :=
  1 + fold_right (fun m acc => Z.max (message_id m) acc) 0 table.

Fixpoint store_rows (first_id : Z) (reqs : list SendMessageRequest) : list Message :=
  match reqs with
  | [] => []
  | r :: rest =>
      {| message_id := first_id; message_request := r |} :: store_rows (first_id + 1) rest
  end.

(** Modelled from the spec: [zerver.actions.message_send.do_send_messages],
    which is not in this file.  It is the transport of section 6: the
    requests are stored in order and their identifiers returned in request
    order.  A send that fails part-way raises after having written the
    first rows. *)
Definition do_send_messages (send_message_requests : list (option SendMessageRequest))
    : M (list Message) :=
  fun w =>
    let batch := prepared send_message_requests in
    let rows := store_rows (next_message_id (messages w)) batch in
    match transport_failure batch (messages w) with
    | None => Returned rows (set_messages (messages w ++ rows) w)
    | Some k => Raised TransportFailure (set_messages (messages w ++ firstn k rows) w)
    end.

Definition send_messages_and_update_level
    (realm : Realm) (new_zulip_update_announcements_level : Z)
    (send_message_requests : list (option SendMessageRequest)) : M unit :=
  atomic (
    sent_message_ids <-
      match send_message_requests with
      | [] => ret []
      | _ :: _ =>
          sent_messages <- do_send_messages send_message_requests ;;
          ret (map message_id sent_messages)
      end ;;
    t <- timezone_now ;;
    RealmAuditLog_create
      {| audit_realm := realm_id realm;
         event_type := REALM_PROPERTY_CHANGED;
         event_time := t;
         extra_data :=
           {| OLD_VALUE := zulip_update_announcements_level realm;
              NEW_VALUE := new_zulip_update_announcements_level;
              property := "zulip_update_announcements_level";
              zulip_update_announcements_message_ids := sent_message_ids |} |} ;;
    save_zulip_update_announcements_level
      (with_level realm (Some new_zulip_update_announcements_level))).

(** The tail of [send_zulip_update_announcements_to_realm]:
    [if new_zulip_update_announcements_level is not None: ...]. *)
Definition send_if_level_set (realm : Realm)
    (new_zulip_update_announcements_level : option Z)
    (messages : list (option SendMessageRequest)) : M unit :=
  match new_zulip_update_announcements_level with
  | Some new_level => send_messages_and_update_level realm new_level messages
  | None => ret tt
  end.

Definition content_of_introductory_message : string :=
  "
To help you learn about new features and configuration options,
this topic will receive messages about important changes in Zulip.

You can read these update messages whenever it's convenient, or
[mute](/help/mute-a-topic) this topic if you are not interested.
If your organization does not want to receive these announcements,
they can be disabled. [Learn more](/help/configure-automated-notices#zulip-update-announcements).
".

Definition send_zulip_update_announcements_to_realm
    (realm : Realm) (skip_delay : bool) (realm_imported_from_other_product : bool)
    : M unit :=
  latest_zulip_update_announcements_level <- lift get_latest_zulip_update_announcements_level ;;
  realm <- refresh_from_db realm ;;
  let realm_zulip_update_announcements_level := zulip_update_announcements_level realm in
  assert_ match realm_zulip_update_announcements_level with
          | None => true
          | Some l => l <? latest_zulip_update_announcements_level
          end ;;
  let sender := get_system_bot (realm_id realm) in
  match realm_zulip_update_announcements_level with
  | None =>
      let group_direct_message :=
        internal_prep_group_direct_message_for_old_realm realm sender in
      let messages := [group_direct_message] in
      let new_zulip_update_announcements_level :=
        if realm_imported_from_other_product
        then latest_zulip_update_announcements_level
        else 0 in
      send_if_level_set realm (Some new_zulip_update_announcements_level) messages
  | Some current_level =>
      match zulip_update_announcements_stream realm with
      | None =>
          level_none_to_initial_auditlog <- get_level_none_to_initial_auditlog realm ;;
          match level_none_to_initial_auditlog with
          | None =>
              send_if_level_set realm (Some latest_zulip_update_announcements_level) []
          | Some auditlog =>
              t <- timezone_now ;;
              if negb (t - event_time auditlog <? timedelta 7)
              then send_if_level_set realm (Some latest_zulip_update_announcements_level) []
              else send_if_level_set realm None []
          end
      | Some stream =>
          wait <-
            (if current_level =? 0 then
               within <- is_group_direct_message_sent_to_admins_within_days realm 1 ;;
               ret (within && negb skip_delay)
             else ret false) ;;
          if (wait : bool) then ret tt
          else
            let topic_name :=
              ZULIP_UPDATE_ANNOUNCEMENTS_TOPIC_NAME (default_language realm) in
            match recipient_id stream with
            | None => raise AssertionError
            | Some stream_recipient_id =>
                topic_has_messages <-
                  (fun w => Returned
                     (messages_for_topic_exists (messages w) (realm_id realm)
                        stream_recipient_id topic_name) w) ;;
                let messages :=
                  if negb topic_has_messages then
                    [internal_prep_stream_message sender stream topic_name
                       (remove_single_newlines content_of_introductory_message)]
                  else [] in
                catalog_messages <-
                  lift (internal_prep_zulip_update_announcements_stream_messages
                          current_level latest_zulip_update_announcements_level
                          sender realm) ;;
                let messages := messages ++ catalog_messages in
                send_if_level_set realm
                  (Some latest_zulip_update_announcements_level) messages
            end
      end
  end.

(** The body of the [for realm in ...] loop of
    [send_zulip_update_announcements], over the realm objects the query
    returned. *)
Fixpoint send_zulip_update_announcements_loop (realms : list Realm) (skip_delay : bool)
    : M unit :=
  match realms with
  | [] => ret tt
  | realm :: rest =>
      try_except
        (send_zulip_update_announcements_to_realm realm skip_delay false)
        logging_exception ;;
      send_zulip_update_announcements_loop rest skip_delay
  end.

Definition send_zulip_update_announcements (skip_delay : bool) : M unit :=
  latest_zulip_update_announcements_level <- lift get_latest_zulip_update_announcements_level ;;
  realms <- get_realms_behind_zulip_update_announcements_level
              latest_zulip_update_announcements_level ;;
  send_zulip_update_announcements_loop realms skip_delay.

End Program.

(** ** Specification vocabulary *)

Section Specification.
Context `{Collaborators}.

(** The highest catalog level, as the code computes it. *)
Definition latestLevel : Z :=
  match get_latest_zulip_update_announcements_level with
  | inr l => l
  | inl _ => 0
  end.

(** The text the catalog holds for a level. *)
Definition announcement_content (lvl : Z) : string :=
  match get_zulip_update_announcements_message_for_level lvl with
  | inr text => text
  | inl _ => EmptyString
  end.

(** The levels [current + 1, current + 2, ..., current + n], increasing. *)
Fixpoint levels_after (current : Z) (n : nat) : list Z :=
  match n with
  | O => []
  | S n' => (current + 1) :: levels_after (current + 1) n'
  end.

(** The world when the exception of a failed run has been caught or has
    reached the caller, and the world when the run returned. *)
Definition state_of {A : Type} (o : Outcome A) : World :=
  match o with
  | Returned _ w => w
  | Raised _ w => w
  end.

(** The row the engine re-reads for a realm object. *)
Definition stored (w : World) (realm : Realm) : option Realm :=
  find (fun r => realm_id r =? realm_id realm) (realms w).

(** The onboarding audit event of a realm: the first one whose old value is
    null. *)
Definition onboarding_event (w : World) (realm : Realm) : option RealmAuditLog :=
  find (is_level_none_to_initial realm) (audit_logs w).

Definition level_change_row (realm : Realm) (new_level t : Z) (ids : list Z) : RealmAuditLog :=
  {| audit_realm := realm_id realm;
     event_type := REALM_PROPERTY_CHANGED;
     event_time := t;
     extra_data :=
       {| OLD_VALUE := zulip_update_announcements_level realm;
          NEW_VALUE := new_level;
          property := "zulip_update_announcements_level";
          zulip_update_announcements_message_ids := ids |} |}.

(** The atomic commit of section 4.4 of the specification, following its
    words: the message rows are stored, one audit event records the old
    level, the new level and the identifiers in send order, and the stored
    level of the organization becomes the new level. *)
Definition atomic_commit (realm : Realm) (new_level : Z) (rows : list Message)
    (w : World) : World :=
  {| realms :=
       map (fun r => if realm_id r =? realm_id realm
                     then with_level r (Some new_level) else r)
           (realms w);
     audit_logs :=
       audit_logs w ++ [level_change_row realm new_level (now w) (map message_id rows)];
     messages := messages w ++ rows;
     now := now w;
     log := log w |}.

(** The rows a successful send of a batch adds to the message table. *)
Definition sent_rows (w : World) (batch : list (option SendMessageRequest)) : list Message :=
  store_rows (next_message_id (messages w)) (prepared batch).

(** The introductory message, present when the topic is still empty. *)
Definition introduction (w : World) (realm : Realm) (stream : Stream) (recipient : Z)
    : list (option SendMessageRequest) :=
  let topic_name := ZULIP_UPDATE_ANNOUNCEMENTS_TOPIC_NAME (default_language realm) in
  if messages_for_topic_exists (messages w) (realm_id realm) recipient topic_name
  then []
  else [internal_prep_stream_message (get_system_bot (realm_id realm)) stream topic_name
          (remove_single_newlines content_of_introductory_message)].

(** One request per level of [levels], in the order of [levels]. *)
Definition catalog_requests (realm : Realm) (stream : Stream) (levels : list Z)
    : list (option SendMessageRequest) :=
  map (fun lvl =>
         internal_prep_stream_message (get_system_bot (realm_id realm)) stream
           (ZULIP_UPDATE_ANNOUNCEMENTS_TOPIC_NAME (default_language realm))
           (announcement_content lvl))
      levels.

(** The organizations a sweep visits. *)
Definition behind (w : World) : list Realm :=
  match get_realms_behind_zulip_update_announcements_level latestLevel w with
  | Returned rs _ => rs
  | Raised _ _ => []
  end.

(** The selector's test on one row. *)
Definition eligible (realm : Realm) : bool :=
  match zulip_update_announcements_level realm with
  | None => true
  | Some l => l <? latestLevel
  end
  && negb (deactivated realm)
  && negb (String.eqb (string_id realm) SYSTEM_BOT_REALM).

(** [currentLevel] is null or lies in [0, latestLevel]. *)
Definition level_in_range (lvl : option Z) : Prop :=
  match lvl with
  | None => True
  | Some l => 0 <= l <= latestLevel
  end.

(** The order on stored levels: null is below every integer. *)
Definition level_le (a b : option Z) : Prop :=
  match a, b with
  | None, _ => True
  | Some x, Some y => x <= y
  | Some _, None => False
  end.

(** A level-change audit event moves upwards and stays within the catalog. *)
Definition transition_ok (row : RealmAuditLog) : Prop :=
  level_le (OLD_VALUE (extra_data row)) (Some (NEW_VALUE (extra_data row)))
  /\ 0 <= NEW_VALUE (extra_data row) <= latestLevel.

(** A rollout run: a full sweep, or the per-organization entry point. *)
Inductive Run : Type :=
| Sweep (skip_delay : bool)
| ForOrganization (realm : Realm) (skip_delay : bool) (realm_imported_from_other_product : bool).

Definition run (r : Run) (w : World) : World :=
  match r with
  | Sweep skip_delay => state_of (send_zulip_update_announcements skip_delay w)
  | ForOrganization realm skip_delay imported =>
      state_of (send_zulip_update_announcements_to_realm realm skip_delay imported w)
  end.

Fixpoint run_all (rs : list Run) (w : World) : World :=
  match rs with
  | [] => w
  | r :: rest => run_all rest (run r w)
  end.

(** What may happen between runs: the clock advances, channels are
    reconfigured, organizations are deactivated, messages are posted.  The
    atomic commit is the only writer of an organization's level and of the
    audit log, so those stay as they are. *)
Definition environment_step (w w' : World) : Prop :=
  map realm_id (realms w') = map realm_id (realms w)
  /\ map zulip_update_announcements_level (realms w')
     = map zulip_update_announcements_level (realms w)
  /\ audit_logs w' = audit_logs w.

(** The worlds reachable by rollout runs interleaved with the environment. *)
Inductive evolves : World -> World -> Prop :=
| evolves_done (w : World) : evolves w w
| evolves_run (r : Run) (w w' : World) : evolves (run r w) w' -> evolves w w'
| evolves_environment (w w1 w' : World) :
    environment_step w w1 -> evolves w1 w' -> evolves w w'.

(** Row by row, the levels did not decrease and stayed in range, and the
    audit log grew by upward transitions only. *)
Definition progress (w w' : World) : Prop :=
  Forall2 (fun r r' =>
             realm_id r' = realm_id r
             /\ level_le (zulip_update_announcements_level r)
                         (zulip_update_announcements_level r')
             /\ (level_in_range (zulip_update_announcements_level r) ->
                 level_in_range (zulip_update_announcements_level r')))
          (realms w) (realms w')
  /\ exists new, audit_logs w' = audit_logs w ++ new /\ Forall transition_ok new.


(** The three branches of [send_zulip_update_announcements_to_realm] on the
    row it re-read. *)
Definition branch_never_initialized (fresh : Realm) (imported : bool) : M unit :=
  send_messages_and_update_level fresh (if imported then latestLevel else 0)
    [internal_prep_group_direct_message_for_old_realm fresh
       (get_system_bot (realm_id fresh))].

Definition branch_no_stream (fresh : Realm) : M unit :=
  fun w =>
    match onboarding_event w fresh with
    | None => send_messages_and_update_level fresh latestLevel [] w
    | Some auditlog =>
        if now w - event_time auditlog <? timedelta 7
        then Returned tt w
        else send_messages_and_update_level fresh latestLevel [] w
    end.

Definition branch_catch_up (fresh : Realm) (current : Z) (stream : Stream) : M unit :=
  fun w =>
    match recipient_id stream with
    | None => Raised AssertionError w
    | Some recipient =>
        match internal_prep_zulip_update_announcements_stream_messages
                current latestLevel (get_system_bot (realm_id fresh)) fresh with
        | inl e => Raised e w
        | inr catalog_messages =>
            send_messages_and_update_level fresh latestLevel
              (introduction w fresh stream recipient ++ catalog_messages) w
        end
    end.

Definition branch_stream (fresh : Realm) (current : Z) (stream : Stream)
    (skip_delay : bool) : M unit :=
  fun w =>
    if current =? 0 then
      match onboarding_event w fresh with
      | None => Raised AssertionError w
      | Some auditlog =>
          if (now w - event_time auditlog <? timedelta 1) && negb skip_delay
          then Returned tt w
          else branch_catch_up fresh current stream w
      end
    else branch_catch_up fresh current stream w.

(** An organization the engine leaves alone this cycle: it is inside the
    seven-day grace window without a channel, or inside the first day after
    onboarding with one. *)
Definition waiting (fresh : Realm) (w : World) : Prop :=
  exists current auditlog,
    zulip_update_announcements_level fresh = Some current
    /\ current < latestLevel
    /\ onboarding_event w fresh = Some auditlog
    /\ match zulip_update_announcements_stream fresh with
       | None => now w - event_time auditlog < timedelta 7
       | Some _ => current = 0 /\ now w - event_time auditlog < timedelta 1
       end.


End Specification.

(** ** A concrete deployment, for evaluating the program *)

Module Demo.

Definition notification_bot : UserProfile := {| user_id := 1 |}.

Definition same_topic (recipient : Z) (topic : string) (m : Message) : bool :=
  match request_audience (message_request m) with
  | ToStream stream topic_name =>
      match recipient_id stream with
      | Some r => (r =? recipient) && String.eqb topic_name topic
      | None => false
      end
  | ToUsers _ => false
  end.

(** The transport refuses, after storing one message, every batch whose
    first request goes to a stream called [broken]. *)
Definition flaky (batch : list SendMessageRequest) (table : list Message) : option nat :=
  match batch with
  | r :: _ =>
      match request_audience r with
      | ToStream stream _ =>
          if String.eqb (stream_name stream) "broken" then Some 1%nat else None
      | ToUsers _ => None
      end
  | [] => None
  end.

Definition collaborators : Collaborators :=
  {| SYSTEM_BOT_REALM := "zulipinternal";
     remove_single_newlines := fun content => content;
     get_system_bot := fun _ => notification_bot;
     get_human_admin_users := fun realm => [ {| user_id := 100 + realm_id realm |} ];
     ZULIP_UPDATE_ANNOUNCEMENTS_TOPIC_NAME := fun _ => "Zulip updates"%string;
     internal_prep_stream_message := fun sender stream topic_name content =>
       Some {| request_sender := sender;
               request_audience := ToStream stream topic_name;
               request_content := content |};
     internal_prep_group_direct_message := fun realm sender content recipient_users =>
       Some {| request_sender := sender;
               request_audience := ToUsers recipient_users;
               request_content := content |};
     messages_for_topic_exists := fun table _ recipient topic =>
       existsb (same_topic recipient topic) table;
     transport_failure := flaky |}.

Definition announce : Stream := {| stream_name := "announce"; recipient_id := Some 7 |}.
Definition broken : Stream := {| stream_name := "broken"; recipient_id := Some 8 |}.

Definition org (i : Z) (lvl : option Z) (stream : option Stream) : Realm :=
  {| realm_id := i; string_id := "org"; deactivated := false;
     default_language := "en";
     zulip_update_announcements_level := lvl;
     zulip_update_announcements_stream := stream |}.

Definition onboarded (i at_time : Z) (new_level : Z) : RealmAuditLog :=
  {| audit_realm := i; event_type := REALM_PROPERTY_CHANGED; event_time := at_time;
     extra_data := {| OLD_VALUE := None; NEW_VALUE := new_level;
                      property := "zulip_update_announcements_level";
                      zulip_update_announcements_message_ids := [] |} |}.

Definition world (rs : list Realm) (al : list RealmAuditLog) (t : Z) : World :=
  {| realms := rs; audit_logs := al; messages := []; now := t; log := [] |}.

Definition hour : Z := 3600000000.

(** A batch for the stream the transport refuses. *)
Definition to_broken : list (option SendMessageRequest) :=
  [ Some {| request_sender := notification_bot;
            request_audience := ToStream broken "Zulip updates";
            request_content := "first" |};
    Some {| request_sender := notification_bot;
            request_audience := ToStream broken "Zulip updates";
            request_content := "second" |} ].

Definition two_organizations : World :=
  world [org 1 None (Some announce); org 2 (Some 3) None] [] 0.


End Demo.

(** ** Vocabulary for the footprint of runs *)

Section Footprint.
Context `{Collaborators}.

(** What a run may write on behalf of the organizations [ids]: the level
    column of their rows, audit events of theirs stamped with the current
    time, and new message rows.  The clock and every other column stay. *)
Definition touches_only (ids : list Z) (w w' : World) : Prop :=
  now w' = now w
  /\ Forall2 (fun r r' =>
                r' = r
                \/ (In (realm_id r) ids /\ exists lvl, r' = with_level r (Some lvl)))
             (realms w) (realms w')
  /\ (exists new,
        audit_logs w' = audit_logs w ++ new
        /\ Forall (fun row => In (audit_realm row) ids
                              /\ event_type row = REALM_PROPERTY_CHANGED
                              /\ event_time row = now w) new)
  /\ exists rows, messages w' = messages w ++ rows.

(** The environment lets [dt] microseconds pass. *)
Definition advance_clock (dt : Z) (w : World) : World :=
  {| realms := realms w; audit_logs := audit_logs w; messages := messages w;
     now := now w + dt; log := log w |}.

(** The number of days a Python [timedelta] can hold. *)
Definition timedelta_max_days : Z := 999999999.


End Footprint.

(** ** A deployment whose transport never fails *)

Module Reliable.

Definition collaborators : Collaborators :=
  {| SYSTEM_BOT_REALM := @SYSTEM_BOT_REALM Demo.collaborators;
     remove_single_newlines := @remove_single_newlines Demo.collaborators;
     get_system_bot := @get_system_bot Demo.collaborators;
     get_human_admin_users := @get_human_admin_users Demo.collaborators;
     ZULIP_UPDATE_ANNOUNCEMENTS_TOPIC_NAME :=
       @ZULIP_UPDATE_ANNOUNCEMENTS_TOPIC_NAME Demo.collaborators;
     internal_prep_stream_message := @internal_prep_stream_message Demo.collaborators;
     internal_prep_group_direct_message :=
       @internal_prep_group_direct_message Demo.collaborators;
     messages_for_topic_exists := @messages_for_topic_exists Demo.collaborators;
     transport_failure := fun _ _ => None |}.

(** An organization whose row is not in the table any more. *)
Definition deleted : Realm := Demo.org 9 (Some 2) (Some Demo.announce).

(** A table with a deactivated organization and the system realm. *)
Definition system_realm : Realm :=
  {| realm_id := 3; string_id := "zulipinternal"; deactivated := false;
     default_language := "en";
     zulip_update_announcements_level := None;
     zulip_update_announcements_stream := None |}.

Definition dormant : Realm :=
  {| realm_id := 2; string_id := "dormant"; deactivated := true;
     default_language := "en";
     zulip_update_announcements_level := Some 1;
     zulip_update_announcements_stream := Some Demo.announce |}.

Definition mixed_table : World :=
  Demo.world [Demo.org 1 (Some 4) (Some Demo.announce); dormant; system_realm] [] 0.

End Reliable.

(** ** A deployment in which no message can be prepared *)

Module Unprepared.

Definition collaborators : Collaborators :=
  {| SYSTEM_BOT_REALM := @SYSTEM_BOT_REALM Demo.collaborators;
     remove_single_newlines := @remove_single_newlines Demo.collaborators;
     get_system_bot := @get_system_bot Demo.collaborators;
     get_human_admin_users := @get_human_admin_users Demo.collaborators;
     ZULIP_UPDATE_ANNOUNCEMENTS_TOPIC_NAME :=
       @ZULIP_UPDATE_ANNOUNCEMENTS_TOPIC_NAME Demo.collaborators;
     internal_prep_stream_message := fun _ _ _ _ => None;
     internal_prep_group_direct_message := fun _ _ _ _ => None;
     messages_for_topic_exists := @messages_for_topic_exists Demo.collaborators;
     transport_failure := @transport_failure Demo.collaborators |}.

End Unprepared.

(** ** Properties *)

Section Properties.
Context `{Collaborators}.

(** *** The catalog *)

Lemma latestLevel_eq : latestLevel = 6.
Proof. reflexivity. Qed.

Lemma get_latest_level_returns :
  get_latest_zulip_update_announcements_level = inr latestLevel.
Proof. reflexivity. Qed.

Lemma catalog_length : List.length zulip_update_announcements = 6%nat.
Proof. reflexivity. Qed.

(** The catalog is numbered 1, 2, ... without gaps: position [i] holds level
    [i + 1]. *)
Lemma catalog_numbering (i : nat) (a : ZulipUpdateAnnouncement) :
  nth_error zulip_update_announcements i = Some a -> level a = Z.of_nat i + 1.
Proof.
  do 6 (destruct i as [|i]; [intros [= <-]; reflexivity|]).
  destruct i; discriminate.
Qed.

Lemma py_getitem_inside {A : Type} (l : list A) (i : Z) :
  0 <= i < Z.of_nat (List.length l) ->
  exists a, nth_error l (Z.to_nat i) = Some a /\ py_getitem l i = inr a.
Proof.
  intros Hi. unfold py_getitem.
  destruct (Z.ltb_spec i 0) as [Hneg|_]; [lia|].
  destruct (Z.leb_spec 0 i) as [_|Hlt]; [|lia].
  destruct (Z.ltb_spec i (Z.of_nat (List.length l))) as [_|Hge]; [|lia].
  cbn [andb].
  destruct (nth_error l (Z.to_nat i)) as [a|] eqn:Hnth.
  - exists a. split; reflexivity.
  - apply nth_error_None in Hnth. lia.
Qed.

Lemma py_getitem_wraps {A : Type} (l : list A) (i : Z) :
  - Z.of_nat (List.length l) <= i < 0 ->
  py_getitem l i = py_getitem l (i + Z.of_nat (List.length l)).
Proof.
  intros Hi. unfold py_getitem.
  destruct (Z.ltb_spec i 0) as [_|Hge]; [|lia].
  destruct (Z.ltb_spec (i + Z.of_nat (List.length l)) 0) as [Hneg|_]; [lia|].
  reflexivity.
Qed.

Lemma py_getitem_outside {A : Type} (l : list A) (i : Z) :
  Z.of_nat (List.length l) <= i \/ i < - Z.of_nat (List.length l) ->
  py_getitem l i = inl IndexError.
Proof.
  intros Hi. unfold py_getitem.
  destruct (Z.ltb_spec i 0) as [Hneg|Hpos].
  - destruct (Z.leb_spec 0 (i + Z.of_nat (List.length l))) as [Hle|_]; [lia|].
    reflexivity.
  - destruct (Z.leb_spec 0 i) as [_|Hlt]; [|lia].
    destruct (Z.ltb_spec i (Z.of_nat (List.length l))) as [Hlt|_]; [lia|].
    reflexivity.
Qed.

Lemma message_for_level_in_catalog (lvl : Z) :
  1 <= lvl <= latestLevel ->
  exists a, In a zulip_update_announcements /\ level a = lvl /\
    get_zulip_update_announcements_message_for_level lvl
    = inr (remove_single_newlines (message a)).
Proof.
  rewrite latestLevel_eq. intros Hl.
  destruct (py_getitem_inside zulip_update_announcements (lvl - 1)) as (a & Hnth & Hget).
  { rewrite catalog_length. lia. }
  exists a. split; [eapply nth_error_In; exact Hnth|]. split.
  - rewrite (catalog_numbering _ _ Hnth). lia.
  - unfold get_zulip_update_announcements_message_for_level. rewrite Hget. reflexivity.
Qed.

Lemma message_for_level_content (lvl : Z) :
  1 <= lvl <= latestLevel ->
  get_zulip_update_announcements_message_for_level lvl = inr (announcement_content lvl).
Proof.
  intros Hl. destruct (message_for_level_in_catalog lvl Hl) as (a & _ & _ & Hget).
  unfold announcement_content. rewrite Hget. reflexivity.
Qed.

(** C2 (amended).  The lookup returns the text of the catalog entry numbered
    [lvl] for every [1 <= lvl <= latestLevel]; it raises [IndexError] for
    every [lvl > latestLevel] and every [lvl <= - latestLevel]; for
    [- latestLevel < lvl <= 0] Python's negative indexing makes it return the
    text of level [lvl + latestLevel] instead of failing. *)
Theorem message_for_level_domain (lvl : Z) :
  (1 <= lvl <= latestLevel ->
     exists a, In a zulip_update_announcements /\ level a = lvl /\
       get_zulip_update_announcements_message_for_level lvl
       = inr (remove_single_newlines (message a)))
  /\ (latestLevel < lvl \/ lvl <= - latestLevel ->
        get_zulip_update_announcements_message_for_level lvl = inl IndexError)
  /\ (- latestLevel < lvl <= 0 ->
        get_zulip_update_announcements_message_for_level lvl
        = get_zulip_update_announcements_message_for_level (lvl + latestLevel)).
Proof.
  split; [apply message_for_level_in_catalog|]. rewrite latestLevel_eq. split.
  - intros Hl. unfold get_zulip_update_announcements_message_for_level.
    rewrite py_getitem_outside; [reflexivity|]. rewrite catalog_length. lia.
  - intros Hl. unfold get_zulip_update_announcements_message_for_level.
    rewrite py_getitem_wraps by (rewrite catalog_length; lia).
    rewrite catalog_length. do 2 f_equal. lia.
Qed.

(** *** The atomic commit *)

Lemma rollback_same (w : World) : rollback w w = w.
Proof. destruct w; reflexivity. Qed.

Lemma stored_exists (w : World) (realm fresh : Realm) :
  stored w realm = Some fresh ->
  existsb (fun r => realm_id r =? realm_id fresh) (realms w) = true
  /\ realm_id fresh = realm_id realm.
Proof.
  unfold stored. intros Hfind. apply find_some in Hfind as [Hin Hid].
  apply Z.eqb_eq in Hid. split; [|exact Hid].
  apply existsb_exists. exists fresh. split; [exact Hin|apply Z.eqb_refl].
Qed.

(** The code of [send_messages_and_update_level] refines the atomic commit
    of the specification: when the transport accepts the batch the result
    is exactly [atomic_commit]; when it refuses, the world is the one the
    call started from. *)
Lemma send_messages_and_update_level_spec
    (realm : Realm) (new_level : Z) (reqs : list (option SendMessageRequest)) (w : World) :
  existsb (fun r => realm_id r =? realm_id realm) (realms w) = true ->
  send_messages_and_update_level realm new_level reqs w =
  match reqs with
  | [] => Returned tt (atomic_commit realm new_level [] w)
  | _ :: _ =>
      match transport_failure (prepared reqs) (messages w) with
      | None => Returned tt (atomic_commit realm new_level (sent_rows w reqs) w)
      | Some _ => Raised TransportFailure w
      end
  end.
Proof.
  intros Hrow.
  unfold send_messages_and_update_level, atomic, bind, ret, timezone_now,
    RealmAuditLog_create, save_zulip_update_announcements_level, do_send_messages.
  destruct reqs as [|r reqs].
  - cbn. rewrite Hrow. unfold atomic_commit, level_change_row. cbn.
    rewrite app_nil_r. reflexivity.
  - destruct (transport_failure (prepared (r :: reqs)) (messages w)) as [k|].
    + destruct w; reflexivity.
    + cbn. rewrite Hrow. reflexivity.
Qed.

(** *** The catch-up loop *)

(** The loop stops because its guard fails, not because the fuel runs out:
    any larger fuel gives the same result. *)
Lemma stream_messages_loop_fuel (fuel : nat) :
  forall current latest sender stream topic acc,
    (Z.to_nat (latest - current) <= fuel)%nat ->
    stream_messages_loop fuel current latest sender stream topic acc
    = stream_messages_loop (Z.to_nat (latest - current)) current latest sender stream topic acc.
Proof.
  induction fuel as [|fuel IH]; intros current latest sender stream topic acc Hfuel.
  - replace (Z.to_nat (latest - current)) with 0%nat by lia. reflexivity.
  - cbn [stream_messages_loop].
    destruct (Z.ltb_spec current latest) as [Hlt|Hge].
    + replace (Z.to_nat (latest - current))
        with (S (Z.to_nat (latest - (current + 1)))) by lia.
      cbn [stream_messages_loop].
      destruct (Z.ltb_spec current latest) as [_|Hge]; [|lia].
      destruct (get_zulip_update_announcements_message_for_level (current + 1)) as [e|content];
        [reflexivity|].
      cbn [E_bind]. apply IH. lia.
    + replace (Z.to_nat (latest - current)) with 0%nat by lia. reflexivity.
Qed.

Lemma stream_messages_loop_catalog (n : nat) :
  forall current sender stream topic acc,
    0 <= current ->
    current + Z.of_nat n <= latestLevel ->
    stream_messages_loop n current (current + Z.of_nat n) sender stream topic acc
    = inr (acc ++ map (fun lvl =>
                         internal_prep_stream_message sender stream topic
                           (announcement_content lvl))
                      (levels_after current n)).
Proof.
  induction n as [|n IH]; intros current sender stream topic acc Hpos Hle.
  - cbn. rewrite app_nil_r. reflexivity.
  - cbn [stream_messages_loop levels_after map].
    destruct (Z.ltb_spec current (current + Z.of_nat (S n))) as [_|Hge]; [|lia].
    rewrite message_for_level_content by lia. cbn [E_bind].
    replace (current + Z.of_nat (S n)) with (current + 1 + Z.of_nat n) by lia.
    rewrite IH by lia. rewrite <- app_assoc. reflexivity.
Qed.

Lemma levels_after_length (current : Z) (n : nat) :
  List.length (levels_after current n) = n.
Proof.
  revert current. induction n as [|n IH]; intros current; cbn; [reflexivity|].
  rewrite IH. reflexivity.
Qed.

(** [levels_after current n] is [current + 1 .. current + n], in order. *)
Lemma levels_after_nth (n : nat) :
  forall current i, (i < n)%nat ->
    nth_error (levels_after current n) i = Some (current + 1 + Z.of_nat i).
Proof.
  induction n as [|n IH]; intros current i Hi; [lia|].
  destruct i as [|i]; cbn [levels_after nth_error].
  - f_equal. lia.
  - rewrite IH by lia. f_equal. lia.
Qed.

Lemma prep_stream_messages_catalog (current : Z) (sender : UserProfile)
    (realm : Realm) (stream : Stream) :
  zulip_update_announcements_stream realm = Some stream ->
  0 <= current <= latestLevel ->
  internal_prep_zulip_update_announcements_stream_messages current latestLevel sender realm
  = inr (map (fun lvl =>
                internal_prep_stream_message sender stream
                  (ZULIP_UPDATE_ANNOUNCEMENTS_TOPIC_NAME (default_language realm))
                  (announcement_content lvl))
             (levels_after current (Z.to_nat (latestLevel - current)))).
Proof.
  intros Hstream Hrange.
  unfold internal_prep_zulip_update_announcements_stream_messages. rewrite Hstream.
  replace latestLevel
    with (current + Z.of_nat (Z.to_nat (latestLevel - current))) at 2 by lia.
  rewrite stream_messages_loop_catalog by lia. reflexivity.
Qed.

(** *** The per-organization run, branch by branch *)

Lemma to_realm_branches (realm fresh : Realm) (skip_delay imported : bool) (w : World) :
  stored w realm = Some fresh ->
  send_zulip_update_announcements_to_realm realm skip_delay imported w =
  match zulip_update_announcements_level fresh with
  | None => branch_never_initialized fresh imported w
  | Some current =>
      if current <? latestLevel then
        match zulip_update_announcements_stream fresh with
        | None => branch_no_stream fresh w
        | Some stream => branch_stream fresh current stream skip_delay w
        end
      else Raised AssertionError w
  end.
Proof.
  intros Hstored. unfold stored in Hstored.
  unfold send_zulip_update_announcements_to_realm, bind, lift, refresh_from_db.
  rewrite get_latest_level_returns, Hstored.
  cbn -[timedelta].
  destruct (zulip_update_announcements_level fresh) as [current|] eqn:Hlevel.
  - destruct (current <? latestLevel); cbn -[timedelta]; [|reflexivity].
    destruct (zulip_update_announcements_stream fresh) as [stream|] eqn:Hstream.
    + unfold branch_stream, branch_catch_up, is_group_direct_message_sent_to_admins_within_days,
        get_level_none_to_initial_auditlog, onboarding_event, timezone_now, bind, ret, raise,
        lift, introduction.
      destruct (current =? 0); cbn -[timedelta].
      * destruct (find (is_level_none_to_initial fresh) (audit_logs w)) as [auditlog|];
          cbn -[timedelta]; [|reflexivity].
        destruct ((now w - event_time auditlog <? timedelta 1) && negb skip_delay);
          cbn -[timedelta]; [reflexivity|].
        destruct (recipient_id stream) as [recipient|]; cbn; [|reflexivity].
        destruct (internal_prep_zulip_update_announcements_stream_messages
                    current latestLevel (get_system_bot (realm_id fresh)) fresh)
          as [e|catalog_messages]; cbn; [reflexivity|].
        destruct (messages_for_topic_exists (messages w) (realm_id fresh) recipient
                    (ZULIP_UPDATE_ANNOUNCEMENTS_TOPIC_NAME (default_language fresh)));
          reflexivity.
      * destruct (recipient_id stream) as [recipient|]; cbn; [|reflexivity].
        destruct (internal_prep_zulip_update_announcements_stream_messages
                    current latestLevel (get_system_bot (realm_id fresh)) fresh)
          as [e|catalog_messages]; cbn; [reflexivity|].
        destruct (messages_for_topic_exists (messages w) (realm_id fresh) recipient
                    (ZULIP_UPDATE_ANNOUNCEMENTS_TOPIC_NAME (default_language fresh)));
          reflexivity.
    + unfold branch_no_stream, get_level_none_to_initial_auditlog, onboarding_event,
        timezone_now, bind. cbn -[timedelta].
      destruct (find (is_level_none_to_initial fresh) (audit_logs w)) as [auditlog|];
        cbn -[timedelta]; [|reflexivity].
      destruct (now w - event_time auditlog <? timedelta 7); reflexivity.
  - reflexivity.
Qed.

Lemma find_map_same_key (key : Realm -> bool) (f : Realm -> Realm) (l : list Realm) (x : Realm) :
  (forall r, key (f r) = key r) ->
  find key l = Some x -> find key (map f l) = Some (f x).
Proof.
  intros Hkey. induction l as [|r l IH]; cbn; [discriminate|].
  rewrite Hkey. destruct (key r); [intros [= ->]; reflexivity|exact IH].
Qed.

Lemma stored_atomic_commit (w : World) (realm fresh : Realm) (n : Z) (rows : list Message) :
  stored w realm = Some fresh ->
  stored (atomic_commit fresh n rows w) realm = Some (with_level fresh (Some n)).
Proof.
  intros Hstored. destruct (stored_exists _ _ _ Hstored) as [_ Hid].
  unfold stored in *. cbn [atomic_commit realms].
  erewrite find_map_same_key; [|..|exact Hstored].
  - rewrite Z.eqb_refl. reflexivity.
  - intros r. destruct (realm_id r =? realm_id fresh); reflexivity.
Qed.

Lemma commit_nonempty (fresh : Realm) (n : Z) (reqs : list (option SendMessageRequest))
    (w : World) :
  existsb (fun r => realm_id r =? realm_id fresh) (realms w) = true ->
  reqs <> [] ->
  send_messages_and_update_level fresh n reqs w =
  match transport_failure (prepared reqs) (messages w) with
  | None => Returned tt (atomic_commit fresh n (sent_rows w reqs) w)
  | Some _ => Raised TransportFailure w
  end.
Proof.
  intros Hrow Hne. rewrite send_messages_and_update_level_spec by exact Hrow.
  destruct reqs; [contradiction|reflexivity].
Qed.

(** A run that raises leaves the world as it found it. *)
Lemma commit_raise_unchanged (fresh : Realm) (n : Z) (reqs : list (option SendMessageRequest))
    (w w' : World) (e : Exn) :
  send_messages_and_update_level fresh n reqs w = Raised e w' -> w' = w.
Proof.
  unfold send_messages_and_update_level, atomic.
  match goal with |- match ?body w with _ => _ end = _ -> _ => destruct (body w) eqn:Hbody end;
    [discriminate|].
  intros [= _ <-].
  assert (Hclock : now w0 = now w /\ log w0 = log w).
  { revert Hbody.
    unfold bind, ret, timezone_now, RealmAuditLog_create,
      save_zulip_update_announcements_level, do_send_messages.
    destruct reqs as [|r reqs]; cbn.
    - destruct (existsb _ _); intros [= _ <-]; split; reflexivity.
    - destruct (transport_failure _ _); cbn; [intros [= _ <-]; split; reflexivity|].
      destruct (existsb _ _); intros [= _ <-]; split; reflexivity. }
  destruct Hclock as [Hnow Hlog]. unfold rollback. rewrite Hnow, Hlog.
  destruct w; reflexivity.
Qed.

Lemma to_realm_raise_unchanged (realm : Realm) (skip_delay imported : bool)
    (w w' : World) (e : Exn) :
  send_zulip_update_announcements_to_realm realm skip_delay imported w = Raised e w' ->
  w' = w.
Proof.
  destruct (stored w realm) as [fresh|] eqn:Hstored.
  - rewrite (to_realm_branches _ _ _ _ _ Hstored).
    unfold branch_never_initialized, branch_no_stream, branch_stream, branch_catch_up.
    repeat match goal with
           | |- Raised _ _ = Raised _ _ -> _ => intros [= _ <-]; reflexivity
           | |- Returned _ _ = Raised _ _ -> _ => discriminate
           | |- send_messages_and_update_level _ _ _ _ = Raised _ _ -> _ =>
               apply commit_raise_unchanged
           | |- context [match ?x with _ => _ end] => destruct x
           end.
  - unfold send_zulip_update_announcements_to_realm, bind, lift, refresh_from_db.
    rewrite get_latest_level_returns. unfold stored in Hstored. rewrite Hstored.
    intros [= _ <-]. reflexivity.
Qed.

(** An organization that is not behind fails the entry assertion. *)
Lemma caught_up_asserts (realm fresh : Realm) (current : Z) (skip_delay imported : bool)
    (w : World) :
  stored w realm = Some fresh ->
  zulip_update_announcements_level fresh = Some current ->
  latestLevel <= current ->
  send_zulip_update_announcements_to_realm realm skip_delay imported w
  = Raised AssertionError w.
Proof.
  intros Hstored Hlevel Hle. rewrite (to_realm_branches _ _ _ _ _ Hstored), Hlevel.
  destruct (Z.ltb_spec current latestLevel); [lia|reflexivity].
Qed.

Lemma waiting_returns (realm fresh : Realm) (imported : bool) (w : World) :
  stored w realm = Some fresh ->
  waiting fresh w ->
  send_zulip_update_announcements_to_realm realm false imported w = Returned tt w.
Proof.
  intros Hstored (current & auditlog & Hlevel & Hlt & Hevent & Hwindow).
  rewrite (to_realm_branches _ _ _ _ _ Hstored), Hlevel.
  destruct (Z.ltb_spec current latestLevel); [|lia].
  destruct (zulip_update_announcements_stream fresh) as [stream|].
  - destruct Hwindow as [-> Hday]. unfold branch_stream. rewrite Hevent. cbn [Z.eqb].
    destruct (Z.ltb_spec (now w - event_time auditlog) (timedelta 1)); [reflexivity|lia].
  - unfold branch_no_stream. rewrite Hevent.
    destruct (Z.ltb_spec (now w - event_time auditlog) (timedelta 7)); [reflexivity|lia].
Qed.

(** *** Prepared requests and stored rows *)

Lemma prepared_app (l1 l2 : list (option SendMessageRequest)) :
  prepared (l1 ++ l2) = prepared l1 ++ prepared l2.
Proof.
  induction l1 as [|[r|] l1 IH]; cbn; [reflexivity| |exact IH]. rewrite IH. reflexivity.
Qed.

(** When every preparation succeeded, nothing is skipped. *)
Lemma prepared_all (l : list (option SendMessageRequest)) :
  (forall request, In request l -> request <> None) -> map Some (prepared l) = l.
Proof.
  induction l as [|[r|] l IH]; intros Hall; cbn.
  - reflexivity.
  - rewrite IH; [reflexivity|]. intros request Hin. apply Hall. right. exact Hin.
  - exfalso. apply (Hall None); [left|]; reflexivity.
Qed.

Lemma store_rows_app (l1 l2 : list SendMessageRequest) :
  forall first_id,
    store_rows first_id (l1 ++ l2)
    = store_rows first_id l1 ++ store_rows (first_id + Z.of_nat (List.length l1)) l2.
Proof.
  induction l1 as [|r l1 IH]; intros first_id; cbn [app store_rows List.length].
  - rewrite Z.add_0_r. reflexivity.
  - rewrite IH.
    replace (first_id + 1 + Z.of_nat (List.length l1))
      with (first_id + Z.of_nat (S (List.length l1))) by lia.
    reflexivity.
Qed.

Lemma store_rows_length (l : list SendMessageRequest) :
  forall first_id, List.length (store_rows first_id l) = List.length l.
Proof.
  induction l as [|r l IH]; intros first_id; cbn; [reflexivity|]. rewrite IH. reflexivity.
Qed.

(** Stored rows keep the order of the requests and number them upwards. *)
Lemma store_rows_nth (l : list SendMessageRequest) :
  forall first_id i r,
    nth_error l i = Some r ->
    nth_error (store_rows first_id l) i
    = Some {| message_id := first_id + Z.of_nat i; message_request := r |}.
Proof.
  induction l as [|r0 l IH]; intros first_id i r; destruct i as [|i]; cbn [nth_error store_rows];
    try discriminate.
  - intros [= ->]. rewrite Z.add_0_r. reflexivity.
  - intros Hnth. rewrite (IH _ _ _ Hnth).
    replace (first_id + 1 + Z.of_nat i) with (first_id + Z.of_nat (S i)) by lia.
    reflexivity.
Qed.

(** Position [lvl - 1] of the catalog holds the announcement numbered
    [lvl], and the lookup returns its text. *)
Lemma announcement_content_in_catalog (lvl : Z) :
  1 <= lvl <= latestLevel ->
  exists a,
    nth_error zulip_update_announcements (Z.to_nat (lvl - 1)) = Some a
    /\ level a = lvl
    /\ announcement_content lvl = remove_single_newlines (message a).
Proof.
  rewrite latestLevel_eq. intros Hl.
  destruct (py_getitem_inside zulip_update_announcements (lvl - 1)) as (a & Hnth & Hget).
  { rewrite catalog_length. lia. }
  exists a. split; [exact Hnth|]. split.
  - rewrite (catalog_numbering _ _ Hnth). lia.
  - unfold announcement_content, get_zulip_update_announcements_message_for_level.
    rewrite Hget. reflexivity.
Qed.

(** *** The decision rules *)

(** C10.  An organization at level 0 with a channel configured but without
    an audit event recording the transition away from null makes the run
    raise [AssertionError] inside the one-day delay check, whatever
    [skip_delay] is; nothing is sent and nothing is stored. *)
Theorem level_zero_without_onboarding_event_asserts
    (realm fresh : Realm) (stream : Stream) (w : World) :
  stored w realm = Some fresh ->
  zulip_update_announcements_level fresh = Some 0 ->
  zulip_update_announcements_stream fresh = Some stream ->
  onboarding_event w fresh = None ->
  is_group_direct_message_sent_to_admins_within_days fresh 1 w = Raised AssertionError w
  /\ forall skip_delay imported,
       send_zulip_update_announcements_to_realm realm skip_delay imported w
       = Raised AssertionError w.
Proof.
  intros Hstored Hlevel Hstream Hevent. split.
  - unfold is_group_direct_message_sent_to_admins_within_days, bind,
      get_level_none_to_initial_auditlog.
    unfold onboarding_event in Hevent. rewrite Hevent. reflexivity.
  - intros skip_delay imported.
    rewrite (to_realm_branches _ _ _ _ _ Hstored), Hlevel, Hstream.
    unfold branch_stream. rewrite Hevent. reflexivity.
Qed.

(** C8.  When the re-read level is an integer that is not strictly below the
    latest level, the run raises [AssertionError] and leaves the world
    untouched; the sweep logs the failure and goes on with the remaining
    organizations from the same tables. *)
Theorem entry_assertion_fails_loudly
    (realm fresh : Realm) (current : Z) (skip_delay : bool) (rest : list Realm) (w : World) :
  stored w realm = Some fresh ->
  zulip_update_announcements_level fresh = Some current ->
  latestLevel <= current ->
  (forall imported,
     send_zulip_update_announcements_to_realm realm skip_delay imported w
     = Raised AssertionError w)
  /\ send_zulip_update_announcements_loop (realm :: rest) skip_delay w
     = send_zulip_update_announcements_loop rest skip_delay
         (set_log (log w ++ [AssertionError]) w).
Proof.
  intros Hstored Hlevel Hle. split.
  - intros imported. eapply caught_up_asserts; eassumption.
  - cbn [send_zulip_update_announcements_loop]. unfold bind at 1. unfold try_except.
    rewrite (caught_up_asserts _ _ _ _ _ _ Hstored Hlevel Hle). reflexivity.
Qed.

(** C3 (amended).  For an organization whose level is an integer strictly
    below the latest level and that has no channel: when the onboarding
    event is absent or at least seven days old, the run commits
    [latestLevel] with no message; when the event is less than seven days
    old, the run returns without touching anything. *)
Theorem no_channel_grace_window (realm fresh : Realm) (current : Z)
    (skip_delay imported : bool) (w : World) :
  stored w realm = Some fresh ->
  zulip_update_announcements_level fresh = Some current ->
  current < latestLevel ->
  zulip_update_announcements_stream fresh = None ->
  ((onboarding_event w fresh = None
    \/ exists auditlog, onboarding_event w fresh = Some auditlog
                        /\ timedelta 7 <= now w - event_time auditlog) ->
     send_zulip_update_announcements_to_realm realm skip_delay imported w
     = Returned tt (atomic_commit fresh latestLevel [] w)
     /\ messages (atomic_commit fresh latestLevel [] w) = messages w
     /\ stored (atomic_commit fresh latestLevel [] w) realm
        = Some (with_level fresh (Some latestLevel)))
  /\ (forall auditlog,
        onboarding_event w fresh = Some auditlog ->
        now w - event_time auditlog < timedelta 7 ->
        send_zulip_update_announcements_to_realm realm skip_delay imported w
        = Returned tt w).
Proof.
  intros Hstored Hlevel Hlt Hstream.
  destruct (stored_exists _ _ _ Hstored) as [Hrow _].
  rewrite (to_realm_branches _ _ _ _ _ Hstored), Hlevel, Hstream.
  destruct (Z.ltb_spec current latestLevel); [|lia].
  unfold branch_no_stream. split.
  - intros Hold. split; [|split].
    + destruct Hold as [-> | (auditlog & -> & Hage)].
      * apply send_messages_and_update_level_spec, Hrow.
      * destruct (Z.ltb_spec (now w - event_time auditlog) (timedelta 7)); [lia|].
        apply send_messages_and_update_level_spec, Hrow.
    + cbn. apply app_nil_r.
    + apply stored_atomic_commit, Hstored.
  - intros auditlog -> Hage.
    destruct (Z.ltb_spec (now w - event_time auditlog) (timedelta 7)); [reflexivity|lia].
Qed.

(** C5 (amended).  For an organization that was never initialized the run
    prepares exactly one request, addressed to the organization's
    administrators, and commits [latestLevel] when the organization is
    flagged as imported and [0] otherwise.  A run that returns has stored
    exactly one message row, carrying that request, when the preparation
    succeeded, and no row when the preparation returned [None]; the level
    is committed in both cases.  After the imported commit the organization
    is not behind any more: no later sweep selects it and a later run for
    it fails the entry assertion, so it never receives catalog messages. *)
Theorem never_initialized_onboarding (realm fresh : Realm)
    (skip_delay imported : bool) (w : World) :
  stored w realm = Some fresh ->
  zulip_update_announcements_level fresh = None ->
  let sender := get_system_bot (realm_id fresh) in
  let onboarding_message := internal_prep_group_direct_message_for_old_realm fresh sender in
  let new_level := if imported then latestLevel else 0 in
  (exists content,
     onboarding_message
     = internal_prep_group_direct_message fresh sender content (get_human_admin_users fresh))
  /\ send_zulip_update_announcements_to_realm realm skip_delay imported w
     = match transport_failure (prepared [onboarding_message]) (messages w) with
       | None =>
           Returned tt (atomic_commit fresh new_level (sent_rows w [onboarding_message]) w)
       | Some _ => Raised TransportFailure w
       end
  /\ forall w',
       send_zulip_update_announcements_to_realm realm skip_delay imported w = Returned tt w' ->
       stored w' realm = Some (with_level fresh (Some new_level))
       /\ messages w' = messages w ++ sent_rows w [onboarding_message]
       /\ (forall request,
             onboarding_message = Some request ->
             messages w'
             = messages w ++ [ {| message_id := next_message_id (messages w);
                                  message_request := request |} ])
       /\ (onboarding_message = None -> messages w' = messages w)
       /\ (imported = true ->
           (forall r, In r (behind w') -> realm_id r <> realm_id realm)
           /\ forall skip_delay' imported',
                send_zulip_update_announcements_to_realm realm skip_delay' imported' w'
                = Raised AssertionError w').
Proof.
  intros Hstored Hlevel sender onboarding_message new_level.
  destruct (stored_exists _ _ _ Hstored) as [Hrow Hid].
  assert (Hrun :
    send_zulip_update_announcements_to_realm realm skip_delay imported w
    = match transport_failure (prepared [onboarding_message]) (messages w) with
      | None =>
          Returned tt (atomic_commit fresh new_level (sent_rows w [onboarding_message]) w)
      | Some _ => Raised TransportFailure w
      end).
  { rewrite (to_realm_branches _ _ _ _ _ Hstored), Hlevel.
    unfold branch_never_initialized. apply commit_nonempty; [exact Hrow|discriminate]. }
  split; [|split; [exact Hrun|]].
  - unfold onboarding_message, internal_prep_group_direct_message_for_old_realm.
    eexists. reflexivity.
  - intros w'. rewrite Hrun.
    destruct (transport_failure _ _); [discriminate|]. intros [= <-].
    pose proof (stored_atomic_commit w realm fresh new_level
                  (sent_rows w [onboarding_message]) Hstored) as Hnew.
    split; [exact Hnew|]. split; [reflexivity|].
    split; [|split].
    + intros request Hsome. cbn [atomic_commit messages]. unfold sent_rows.
      rewrite Hsome. reflexivity.
    + intros Hnone. cbn [atomic_commit messages]. unfold sent_rows.
      rewrite Hnone. cbn. apply app_nil_r.
    + intros ->. split.
      * intros r Hin Hsame.
        unfold behind, get_realms_behind_zulip_update_announcements_level in Hin.
        apply filter_In in Hin as [Hin Hbehind]. cbn [atomic_commit realms] in Hin.
        apply in_map_iff in Hin as (r0 & <- & _).
        rewrite <- Hid in Hsame.
        destruct (Z.eqb_spec (realm_id r0) (realm_id fresh)) as [_|Hne].
        -- cbn in Hbehind. rewrite Z.ltb_irrefl in Hbehind. discriminate.
        -- contradiction.
      * intros skip_delay' imported'.
        eapply caught_up_asserts; [exact Hnew|reflexivity|].
        unfold new_level. lia.
Qed.

Lemma catch_up_run (fresh : Realm) (current : Z) (stream : Stream) (recipient : Z)
    (w : World) :
  existsb (fun r => realm_id r =? realm_id fresh) (realms w) = true ->
  zulip_update_announcements_stream fresh = Some stream ->
  recipient_id stream = Some recipient ->
  0 <= current < latestLevel ->
  let batch :=
    introduction w fresh stream recipient
    ++ catalog_requests fresh stream
         (levels_after current (Z.to_nat (latestLevel - current))) in
  branch_catch_up fresh current stream w
  = match transport_failure (prepared batch) (messages w) with
    | None => Returned tt (atomic_commit fresh latestLevel (sent_rows w batch) w)
    | Some _ => Raised TransportFailure w
    end.
Proof.
  intros Hrow Hstream Hrecipient Hrange batch.
  unfold branch_catch_up. rewrite Hrecipient.
  rewrite (prep_stream_messages_catalog current _ fresh stream Hstream) by lia.
  apply commit_nonempty; [exact Hrow|].
  intros Hnil. apply app_eq_nil in Hnil as [_ Hnil].
  apply (f_equal (@List.length _)) in Hnil. unfold catalog_requests in Hnil.
  rewrite length_map, levels_after_length in Hnil. cbn [List.length] in Hnil. lia.
Qed.


(** C1 (amended).  For an organization at an integer level [0 <= L <
    latestLevel] with a configured channel and the delay window satisfied,
    the run hands to the transport the introductory message when the topic
    is still empty, followed by exactly [latestLevel - L] catalog requests,
    the one for level [L + 1 + i] at position [i].  A run that returns has
    set the level to [latestLevel]; and when every request of the batch was
    prepared (none is [None], which the send would skip), the message rows
    it stored are the introductory row, if any, followed by exactly
    [latestLevel - L] rows: row [i] carries the request prepared from the
    text of the catalog entry at position [L + i], whose level is
    [L + 1 + i], and the identifiers increase by one from row to row. *)
Theorem catch_up_sends_every_level_in_order (realm fresh : Realm) (current : Z)
    (stream : Stream) (recipient : Z) (skip_delay imported : bool) (w : World) :
  stored w realm = Some fresh ->
  zulip_update_announcements_level fresh = Some current ->
  0 <= current < latestLevel ->
  zulip_update_announcements_stream fresh = Some stream ->
  recipient_id stream = Some recipient ->
  (current = 0 ->
   exists auditlog, onboarding_event w fresh = Some auditlog
     /\ (skip_delay = true \/ timedelta 1 <= now w - event_time auditlog)) ->
  let sender := get_system_bot (realm_id fresh) in
  let topic_name := ZULIP_UPDATE_ANNOUNCEMENTS_TOPIC_NAME (default_language fresh) in
  let levels := levels_after current (Z.to_nat (latestLevel - current)) in
  let catalog_messages := catalog_requests fresh stream levels in
  let batch := introduction w fresh stream recipient ++ catalog_messages in
  send_zulip_update_announcements_to_realm realm skip_delay imported w
  = match transport_failure (prepared batch) (messages w) with
    | None => Returned tt (atomic_commit fresh latestLevel (sent_rows w batch) w)
    | Some _ => Raised TransportFailure w
    end
  /\ Z.of_nat (List.length catalog_messages) = latestLevel - current
  /\ (forall i, (i < Z.to_nat (latestLevel - current))%nat ->
        let lvl := current + 1 + Z.of_nat i in
        nth_error levels i = Some lvl
        /\ get_zulip_update_announcements_message_for_level lvl
           = inr (announcement_content lvl)
        /\ nth_error catalog_messages i
           = Some (internal_prep_stream_message sender stream topic_name
                     (announcement_content lvl)))
  /\ List.length (introduction w fresh stream recipient)
     = (if messages_for_topic_exists (messages w) (realm_id fresh) recipient topic_name
        then 0%nat else 1%nat)
  /\ forall w',
       send_zulip_update_announcements_to_realm realm skip_delay imported w = Returned tt w' ->
       stored w' realm = Some (with_level fresh (Some latestLevel))
       /\ messages w' = messages w ++ sent_rows w batch
       /\ ((forall request, In request batch -> request <> None) ->
           exists introductory catalog_rows,
             messages w' = messages w ++ introductory ++ catalog_rows
             /\ List.length introductory
                = (if messages_for_topic_exists (messages w) (realm_id fresh) recipient
                        topic_name
                   then 0%nat else 1%nat)
             /\ Z.of_nat (List.length catalog_rows) = latestLevel - current
             /\ forall i, (i < Z.to_nat (latestLevel - current))%nat ->
                  exists a row,
                    nth_error catalog_rows i = Some row
                    /\ nth_error zulip_update_announcements
                         (Z.to_nat (current + Z.of_nat i)) = Some a
                    /\ level a = current + 1 + Z.of_nat i
                    /\ internal_prep_stream_message sender stream topic_name
                         (remove_single_newlines (message a))
                       = Some (message_request row)
                    /\ message_id row
                       = next_message_id (messages w)
                         + Z.of_nat (List.length introductory) + Z.of_nat i).
Proof.
  intros Hstored Hlevel Hrange Hstream Hrecipient Hdelay
    sender topic_name levels catalog_messages batch.
  destruct (stored_exists _ _ _ Hstored) as [Hrow _].
  assert (Hrun :
    send_zulip_update_announcements_to_realm realm skip_delay imported w
    = match transport_failure (prepared batch) (messages w) with
      | None => Returned tt (atomic_commit fresh latestLevel (sent_rows w batch) w)
      | Some _ => Raised TransportFailure w
      end).
  { rewrite (to_realm_branches _ _ _ _ _ Hstored), Hlevel, Hstream.
    destruct (Z.ltb_spec current latestLevel); [|lia].
    unfold branch_stream.
    destruct (Z.eqb_spec current 0) as [Hzero|_].
    - destruct (Hdelay Hzero) as (auditlog & -> & Hgo).
      replace ((now w - event_time auditlog <? timedelta 1) && negb skip_delay)
        with false.
      + apply catch_up_run; assumption.
      + destruct Hgo as [-> | Hold].
        * symmetry. apply andb_false_r.
        * destruct (Z.ltb_spec (now w - event_time auditlog) (timedelta 1)); [lia|].
          reflexivity.
    - apply catch_up_run; assumption. }
  assert (Hlevels : forall i, (i < Z.to_nat (latestLevel - current))%nat ->
            nth_error catalog_messages i
            = Some (internal_prep_stream_message sender stream topic_name
                      (announcement_content (current + 1 + Z.of_nat i)))).
  { intros i Hi. unfold catalog_messages, catalog_requests. rewrite nth_error_map.
    unfold levels. rewrite levels_after_nth by exact Hi. reflexivity. }
  assert (Hcount : List.length catalog_messages = Z.to_nat (latestLevel - current)).
  { unfold catalog_messages, catalog_requests, levels.
    rewrite length_map, levels_after_length. reflexivity. }
  assert (Hintro : List.length (introduction w fresh stream recipient)
                   = (if messages_for_topic_exists (messages w) (realm_id fresh) recipient
                           topic_name
                      then 0%nat else 1%nat)).
  { unfold introduction. fold topic_name.
    destruct (messages_for_topic_exists _ _ _ _); reflexivity. }
  split; [exact Hrun|]. split; [|split; [|split]].
  - rewrite Hcount. lia.
  - intros i Hi lvl. split; [|split].
    + apply levels_after_nth, Hi.
    + apply message_for_level_content. unfold lvl. lia.
    + apply Hlevels, Hi.
  - exact Hintro.
  - intros w'. rewrite Hrun. destruct (transport_failure _ _); [discriminate|].
    intros [= <-]. split; [apply stored_atomic_commit, Hstored|].
    split; [reflexivity|].
    intros Hprepared.
    assert (Hpi : forall request, In request (introduction w fresh stream recipient) ->
                    request <> None).
    { intros request Hin. apply Hprepared, in_or_app. left. exact Hin. }
    assert (Hpc : forall request, In request catalog_messages -> request <> None).
    { intros request Hin. apply Hprepared, in_or_app. right. exact Hin. }
    pose proof (prepared_all _ Hpi) as Hsome_intro.
    pose proof (prepared_all _ Hpc) as Hsome_catalog.
    assert (Hlen_intro : List.length (prepared (introduction w fresh stream recipient))
                         = List.length (introduction w fresh stream recipient)).
    { rewrite <- Hsome_intro at 2. rewrite length_map. reflexivity. }
    assert (Hlen_catalog : List.length (prepared catalog_messages)
                           = List.length catalog_messages).
    { rewrite <- Hsome_catalog at 2. rewrite length_map. reflexivity. }
    exists (store_rows (next_message_id (messages w))
              (prepared (introduction w fresh stream recipient))),
           (store_rows (next_message_id (messages w)
                        + Z.of_nat (List.length
                                      (prepared (introduction w fresh stream recipient))))
              (prepared catalog_messages)).
    split; [|split; [|split]].
    + cbn [atomic_commit messages]. unfold sent_rows, batch.
      rewrite prepared_app, store_rows_app. reflexivity.
    + rewrite store_rows_length, Hlen_intro. exact Hintro.
    + rewrite store_rows_length, Hlen_catalog, Hcount. lia.
    + intros i Hi.
      destruct (announcement_content_in_catalog (current + 1 + Z.of_nat i))
        as (a & Hposition & Hnumber & Htext); [lia|].
      pose proof (Hlevels i Hi) as Hrequest.
      rewrite <- Hsome_catalog, nth_error_map in Hrequest.
      destruct (nth_error (prepared catalog_messages) i) as [request|] eqn:Hnth;
        [|discriminate].
      cbn [option_map] in Hrequest. injection Hrequest as Hrequest.
      eexists a, _. split; [apply store_rows_nth, Hnth|]. split; [|split; [|split]].
      * replace (current + Z.of_nat i) with (current + 1 + Z.of_nat i - 1) by lia.
        exact Hposition.
      * exact Hnumber.
      * cbn [message_request]. rewrite <- Htext. symmetry. exact Hrequest.
      * cbn [message_id]. rewrite store_rows_length. reflexivity.
Qed.

(** C7.  When the transport fails on the composed batch, even after having
    stored some of its messages, [send_messages_and_update_level] raises
    and the tables are the ones the call started from: no audit event, the
    level unchanged, no message row; the organizations that are behind are
    the same, so the next sweep retries this one whole.  The same holds for
    any exception the whole per-organization run raises. *)
Theorem failed_send_commits_nothing (realm : Realm) (new_level : Z)
    (reqs : list (option SendMessageRequest)) (k : nat) (w : World) :
  reqs <> [] ->
  transport_failure (prepared reqs) (messages w) = Some k ->
  do_send_messages reqs w
  = Raised TransportFailure (set_messages (messages w ++ firstn k (sent_rows w reqs)) w)
  /\ (exists w',
        send_messages_and_update_level realm new_level reqs w = Raised TransportFailure w'
        /\ audit_logs w' = audit_logs w
        /\ realms w' = realms w
        /\ messages w' = messages w
        /\ behind w' = behind w)
  /\ forall organization skip_delay imported e w',
       send_zulip_update_announcements_to_realm organization skip_delay imported w
       = Raised e w' ->
       w' = w.
Proof.
  intros Hne Hfail. split; [|split].
  - unfold do_send_messages. rewrite Hfail. reflexivity.
  - exists w.
    assert (Hraise : send_messages_and_update_level realm new_level reqs w
                     = Raised TransportFailure w).
    { unfold send_messages_and_update_level, atomic, bind, do_send_messages.
      destruct reqs as [|r reqs]; [contradiction|].
      rewrite Hfail. destruct w; reflexivity. }
    rewrite Hraise. repeat split; reflexivity.
  - intros organization skip_delay imported e w'. apply to_realm_raise_unchanged.
Qed.

(** *** Every outcome of a per-organization run *)

Lemma to_realm_cases (realm fresh : Realm) (skip_delay imported : bool) (w : World) :
  stored w realm = Some fresh ->
  (exists e, send_zulip_update_announcements_to_realm realm skip_delay imported w
             = Raised e w)
  \/ (send_zulip_update_announcements_to_realm realm skip_delay imported w = Returned tt w
      /\ waiting fresh w
      /\ (zulip_update_announcements_stream fresh <> None -> skip_delay = false))
  \/ (exists new_level rows,
        send_zulip_update_announcements_to_realm realm skip_delay imported w
        = Returned tt (atomic_commit fresh new_level rows w)
        /\ match zulip_update_announcements_level fresh with
           | None => new_level = if imported then latestLevel else 0
           | Some current => current < latestLevel /\ new_level = latestLevel
           end).
Proof.
  intros Hstored. destruct (stored_exists _ _ _ Hstored) as [Hrow _].
  assert (Hcommit : forall new_level reqs,
    (exists e, send_messages_and_update_level fresh new_level reqs w = Raised e w)
    \/ exists rows, send_messages_and_update_level fresh new_level reqs w
                    = Returned tt (atomic_commit fresh new_level rows w)).
  { intros new_level reqs. rewrite send_messages_and_update_level_spec by exact Hrow.
    destruct reqs as [|r reqs]; [right; eexists; reflexivity|].
    destruct (transport_failure _ _); [left|right]; eexists; reflexivity. }
  rewrite (to_realm_branches _ _ _ _ _ Hstored).
  destruct (zulip_update_announcements_level fresh) as [current|] eqn:Hlevel.
  - destruct (Z.ltb_spec current latestLevel) as [Hlt|Hge];
      [|left; eexists; reflexivity].
    assert (Hcatch : forall stream,
      (exists e, branch_catch_up fresh current stream w = Raised e w)
      \/ exists rows, branch_catch_up fresh current stream w
                      = Returned tt (atomic_commit fresh latestLevel rows w)).
    { intros stream. unfold branch_catch_up.
      destruct (recipient_id stream); [|left; eexists; reflexivity].
      destruct (internal_prep_zulip_update_announcements_stream_messages _ _ _ _);
        [left; eexists; reflexivity|apply Hcommit]. }
    assert (Hlatest : forall run,
      ((exists e, run = Raised e w)
       \/ exists rows, run = Returned tt (atomic_commit fresh latestLevel rows w)) ->
      (exists e, run = Raised e w)
      \/ (run = Returned tt w /\ waiting fresh w
          /\ (zulip_update_announcements_stream fresh <> None -> skip_delay = false))
      \/ exists new_level rows,
           run = Returned tt (atomic_commit fresh new_level rows w)
           /\ current < latestLevel /\ new_level = latestLevel).
    { intros run [Hraise|(rows & Hrows)]; [left; exact Hraise|].
      right. right. exists latestLevel, rows. auto. }
    destruct (zulip_update_announcements_stream fresh) as [stream|] eqn:Hstream.
    + unfold branch_stream.
      destruct (Z.eqb_spec current 0) as [Hzero|_]; [|apply Hlatest, Hcatch].
      destruct (onboarding_event w fresh) as [auditlog|] eqn:Hevent;
        [|left; eexists; reflexivity].
      destruct (Z.ltb_spec (now w - event_time auditlog) (timedelta 1)) as [Hday|_];
        [|apply Hlatest, Hcatch].
      destruct skip_delay; cbn [andb negb]; [apply Hlatest, Hcatch|].
      right. left. split; [reflexivity|]. split; [|reflexivity].
      exists current, auditlog. rewrite Hstream. auto.
    + unfold branch_no_stream.
      destruct (onboarding_event w fresh) as [auditlog|] eqn:Hevent;
        [|apply Hlatest, Hcommit].
      destruct (Z.ltb_spec (now w - event_time auditlog) (timedelta 7)) as [Hweek|_];
        [|apply Hlatest, Hcommit].
      right. left. split; [reflexivity|]. split; [|intros Hsome; contradiction].
      exists current, auditlog. rewrite Hstream. auto.
  - unfold branch_never_initialized.
    destruct (Hcommit (if imported then latestLevel else 0)
                [internal_prep_group_direct_message_for_old_realm fresh
                   (get_system_bot (realm_id fresh))]) as [Hraise|(rows & Hrows)];
      [left; exact Hraise|].
    right. right. eexists _, rows. split; [exact Hrows|reflexivity].
Qed.

Lemma to_realm_not_stored (realm : Realm) (skip_delay imported : bool) (w : World) :
  stored w realm = None ->
  send_zulip_update_announcements_to_realm realm skip_delay imported w
  = Raised DoesNotExist w.
Proof.
  intros Hstored.
  unfold send_zulip_update_announcements_to_realm, bind, lift, refresh_from_db.
  rewrite get_latest_level_returns. unfold stored in Hstored. rewrite Hstored. reflexivity.
Qed.

(** *** Monotonicity *)

Lemma level_le_refl (a : option Z) : level_le a a.
Proof. destruct a; cbn; [lia|exact I]. Qed.

Lemma level_le_trans (a b c : option Z) : level_le a b -> level_le b c -> level_le a c.
Proof. destruct a, b, c; cbn; try tauto; lia. Qed.

Lemma progress_refl (w : World) : progress w w.
Proof.
  split.
  - induction (realms w) as [|r l IH]; constructor; [|exact IH].
    split; [reflexivity|]. split; [apply level_le_refl|tauto].
  - exists []. split; [symmetry; apply app_nil_r|constructor].
Qed.

Lemma progress_trans (w1 w2 w3 : World) : progress w1 w2 -> progress w2 w3 -> progress w1 w3.
Proof.
  intros [Hrows12 (new12 & Hlog12 & Hnew12)] [Hrows23 (new23 & Hlog23 & Hnew23)]. split.
  - revert Hrows23. generalize (realms w3). induction Hrows12 as [|r1 r2 l1 l2 Hr _ IH];
      intros l3 Hrows23; inversion Hrows23 as [|? r3 ? l3' Hr' Hrest]; subst;
      constructor; [|apply IH, Hrest].
    destruct Hr as (Hid & Hle & Hrange), Hr' as (Hid' & Hle' & Hrange').
    split; [congruence|]. split; [eapply level_le_trans; eassumption|tauto].
  - exists (new12 ++ new23). split.
    + rewrite Hlog23, Hlog12, app_assoc. reflexivity.
    + apply Forall_app. split; assumption.
Qed.

Lemma progress_keys (w w' : World) :
  progress w w' -> map realm_id (realms w') = map realm_id (realms w).
Proof.
  intros [Hrows _]. induction Hrows as [|r r' l l' (Hid & _) _ IH]; cbn; [reflexivity|].
  rewrite Hid, IH. reflexivity.
Qed.

Lemma progress_same_tables (w w' : World) :
  realms w' = realms w -> audit_logs w' = audit_logs w -> progress w w'.
Proof.
  intros Hrealms Hlogs. destruct (progress_refl w) as [Hrows Hnew].
  unfold progress. rewrite Hrealms, Hlogs. split; assumption.
Qed.

Lemma unique_key (l : list Realm) (x y : Realm) :
  NoDup (map realm_id l) -> In x l -> In y l -> realm_id x = realm_id y -> x = y.
Proof.
  induction l as [|r l IH]; cbn; [contradiction|].
  intros Hnodup Hx Hy Hid. inversion Hnodup as [|? ? Hnotin Hrest]; subst.
  destruct Hx as [<-|Hx], Hy as [<-|Hy].
  - reflexivity.
  - exfalso. apply Hnotin. rewrite Hid. apply in_map, Hy.
  - exfalso. apply Hnotin. rewrite <- Hid. apply in_map, Hx.
  - apply IH; assumption.
Qed.

Lemma stored_unique (w : World) (realm fresh : Realm) :
  NoDup (map realm_id (realms w)) -> In fresh (realms w) ->
  realm_id fresh = realm_id realm -> stored w realm = Some fresh.
Proof.
  intros Hnodup Hin Hid. unfold stored.
  destruct (find _ (realms w)) as [found|] eqn:Hfind.
  - apply find_some in Hfind as [Hin' Hid']. apply Z.eqb_eq in Hid'.
    f_equal. eapply unique_key; [exact Hnodup|exact Hin'|exact Hin|congruence].
  - exfalso. pose proof (find_none _ _ Hfind fresh Hin) as Hno. cbn in Hno.
    rewrite Hid, Z.eqb_refl in Hno. discriminate.
Qed.

Lemma Forall2_map_right (R : Realm -> Realm -> Prop) (f : Realm -> Realm) (l : list Realm) :
  (forall r, In r l -> R r (f r)) -> Forall2 R l (map f l).
Proof.
  induction l as [|r l IH]; intros HR; cbn; constructor.
  - apply HR. left. reflexivity.
  - apply IH. intros r' Hin. apply HR. right. exact Hin.
Qed.

Lemma commit_progress (w : World) (realm fresh : Realm) (new_level : Z) (rows : list Message) :
  NoDup (map realm_id (realms w)) ->
  stored w realm = Some fresh ->
  match zulip_update_announcements_level fresh with
  | None => new_level = 0 \/ new_level = latestLevel
  | Some current => current < latestLevel /\ new_level = latestLevel
  end ->
  progress w (atomic_commit fresh new_level rows w).
Proof.
  intros Hnodup Hstored Hkind.
  assert (Hup : level_le (zulip_update_announcements_level fresh) (Some new_level)
                /\ 0 <= new_level <= latestLevel).
  { rewrite latestLevel_eq in *.
    destruct (zulip_update_announcements_level fresh); cbn; lia. }
  destruct Hup as [Hle Hbound].
  pose proof Hstored as Hin. apply find_some in Hin as [Hin _].
  split.
  - cbn [atomic_commit realms]. apply Forall2_map_right. intros r Hr.
    destruct (Z.eqb_spec (realm_id r) (realm_id fresh)) as [Hid|_].
    + assert (r = fresh) as -> by (apply (unique_key (realms w)); assumption).
      split; [reflexivity|]. split; [exact Hle|]. intros _. exact Hbound.
    + split; [reflexivity|]. split; [apply level_le_refl|tauto].
  - eexists. split; [reflexivity|]. constructor; [|constructor]. split; assumption.
Qed.

Lemma to_realm_progress (realm : Realm) (skip_delay imported : bool) (w : World) :
  NoDup (map realm_id (realms w)) ->
  progress w (state_of (send_zulip_update_announcements_to_realm realm skip_delay imported w)).
Proof.
  intros Hnodup. destruct (stored w realm) as [fresh|] eqn:Hstored.
  - destruct (to_realm_cases realm fresh skip_delay imported w Hstored)
      as [(e & ->) | [(-> & _) | (new_level & rows & -> & Hkind)]];
      [apply progress_refl..|].
    cbn [state_of]. eapply commit_progress; [exact Hnodup|exact Hstored|].
    destruct (zulip_update_announcements_level fresh); [exact Hkind|].
    destruct imported; auto.
  - rewrite to_realm_not_stored by exact Hstored. apply progress_refl.
Qed.

Lemma loop_returns (rs : list Realm) (skip_delay : bool) (w : World) :
  exists w', send_zulip_update_announcements_loop rs skip_delay w = Returned tt w'.
Proof.
  revert w. induction rs as [|realm rest IH]; intros w; cbn; [eexists; reflexivity|].
  unfold bind, try_except, logging_exception.
  destruct (send_zulip_update_announcements_to_realm realm skip_delay false w);
    [destruct a|]; apply IH.
Qed.

Lemma loop_progress (rs : list Realm) (skip_delay : bool) (w : World) :
  NoDup (map realm_id (realms w)) ->
  progress w (state_of (send_zulip_update_announcements_loop rs skip_delay w)).
Proof.
  revert w. induction rs as [|realm rest IH]; intros w Hnodup; cbn; [apply progress_refl|].
  pose proof (to_realm_progress realm skip_delay false w Hnodup) as Hstep.
  unfold bind, try_except, logging_exception.
  destruct (send_zulip_update_announcements_to_realm realm skip_delay false w)
    as [[] w1|e w1]; cbn [state_of] in Hstep.
  - eapply progress_trans; [exact Hstep|]. apply IH.
    rewrite (progress_keys _ _ Hstep). exact Hnodup.
  - eapply progress_trans; [exact Hstep|].
    eapply progress_trans; [apply (progress_same_tables w1 (set_log (log w1 ++ [e]) w1));
                            reflexivity|].
    apply IH. cbn. rewrite (progress_keys _ _ Hstep). exact Hnodup.
Qed.

Lemma sweep_is_loop (skip_delay : bool) (w : World) :
  send_zulip_update_announcements skip_delay w
  = send_zulip_update_announcements_loop (behind w) skip_delay w.
Proof. reflexivity. Qed.

Lemma run_progress (r : Run) (w : World) :
  NoDup (map realm_id (realms w)) -> progress w (run r w).
Proof.
  intros Hnodup. destruct r as [skip_delay|realm skip_delay imported]; cbn [run].
  - rewrite sweep_is_loop. apply loop_progress, Hnodup.
  - apply to_realm_progress, Hnodup.
Qed.

Lemma environment_progress (w w' : World) : environment_step w w' -> progress w w'.
Proof.
  intros (Hids & Hlevels & Hlogs). split.
  - revert Hids Hlevels. generalize (realms w'). induction (realms w) as [|r l IH];
      intros [|r' l']; cbn; try discriminate; constructor.
    + injection Hids as Hid _. injection Hlevels as Hlevel _.
      rewrite Hlevel. split; [exact Hid|]. split; [apply level_le_refl|tauto].
    + injection Hids as _ Hids. injection Hlevels as _ Hlevels. apply IH; assumption.
  - exists []. rewrite app_nil_r. split; [exact Hlogs|constructor].
Qed.

(** C6.  Along every sequence of rollout runs (sweeps and per-organization
    runs, interleaved with the environment), starting from tables in which
    every stored level is null or within [0, latestLevel]: every stored
    level is still null or within [0, latestLevel], no organization's level
    has decreased (null counting as below every integer), and every audit
    event the runs appended records a transition to a greater or equal
    value that does not exceed [latestLevel]. *)
Theorem levels_monotone_and_bounded (w w' : World) :
  evolves w w' ->
  NoDup (map realm_id (realms w)) ->
  Forall (fun r => level_in_range (zulip_update_announcements_level r)) (realms w) ->
  Forall (fun r => level_in_range (zulip_update_announcements_level r)) (realms w')
  /\ Forall2 (fun r r' =>
                realm_id r' = realm_id r
                /\ level_le (zulip_update_announcements_level r)
                            (zulip_update_announcements_level r'))
             (realms w) (realms w')
  /\ exists new, audit_logs w' = audit_logs w ++ new /\ Forall transition_ok new.
Proof.
  intros Hevolves Hnodup Hrange.
  assert (Hprogress : progress w w').
  { induction Hevolves as [w|r w w' _ IH|w w1 w' Henv _ IH].
    - apply progress_refl.
    - pose proof (run_progress r w Hnodup) as Hstep.
      eapply progress_trans; [exact Hstep|]. apply IH.
      + rewrite (progress_keys _ _ Hstep). exact Hnodup.
      + destruct Hstep as [Hrows _]. clear -Hrows Hrange.
        induction Hrows as [|r1 r2 l1 l2 (_ & _ & Hkeep) _ IHrows]; [constructor|].
        inversion Hrange; subst. constructor; auto.
    - pose proof (environment_progress _ _ Henv) as Hstep.
      eapply progress_trans; [exact Hstep|]. apply IH.
      + rewrite (progress_keys _ _ Hstep). exact Hnodup.
      + destruct Hstep as [Hrows _]. clear -Hrows Hrange.
        induction Hrows as [|r1 r2 l1 l2 (_ & _ & Hkeep) _ IHrows]; [constructor|].
        inversion Hrange; subst. constructor; auto. }
  destruct Hprogress as [Hrows Hnew]. split; [|split; [|exact Hnew]].
  - clear -Hrows Hrange.
    induction Hrows as [|r1 r2 l1 l2 (_ & _ & Hkeep) _ IHrows]; [constructor|].
    inversion Hrange; subst. constructor; auto.
  - clear -Hrows. induction Hrows as [|r1 r2 l1 l2 (Hid & Hle & _) _ IHrows];
      constructor; auto.
Qed.

(** *** Idempotence of the sweep *)

Lemma behind_eligible (w : World) (x : Realm) :
  In x (behind w) <-> In x (realms w) /\ eligible x = true.
Proof. unfold behind, get_realms_behind_zulip_update_announcements_level. apply filter_In. Qed.

Lemma find_append {A : Type} (p : A -> bool) (l l' : list A) :
  find p (l ++ l') = match find p l with Some x => Some x | None => find p l' end.
Proof.
  induction l as [|a l IH]; cbn; [reflexivity|]. destruct (p a); [reflexivity|exact IH].
Qed.




Lemma onboarding_event_same_key (w : World) (x y : Realm) :
  realm_id x = realm_id y -> onboarding_event w x = onboarding_event w y.
Proof.
  intros Hid. unfold onboarding_event.
  induction (audit_logs w) as [|row l IH]; cbn; [reflexivity|].
  unfold is_level_none_to_initial at 1 3. rewrite Hid, IH. reflexivity.
Qed.



Lemma to_realm_returned_log (realm : Realm) (skip_delay imported : bool) (w w' : World) :
  send_zulip_update_announcements_to_realm realm skip_delay imported w = Returned tt w' ->
  log w' = log w.
Proof.
  destruct (stored w realm) as [fresh|] eqn:Hstored.
  - destruct (to_realm_cases realm fresh skip_delay imported w Hstored)
      as [(e & ->) | [(-> & _) | (new_level & rows & -> & _)]];
      [discriminate|intros [= <-]; reflexivity..].
  - rewrite to_realm_not_stored by exact Hstored. discriminate.
Qed.





(** *** The selector *)

(** X1.  The selector only reads; raising the threshold only adds
    organizations; an active organization outside the system realm that was
    never initialized is selected at every threshold; a deactivated
    organization and the system realm are selected at none. *)
Theorem selector_monotone (threshold threshold' : Z) (w : World) :
  threshold <= threshold' ->
  exists rs rs',
    get_realms_behind_zulip_update_announcements_level threshold w = Returned rs w
    /\ get_realms_behind_zulip_update_announcements_level threshold' w = Returned rs' w
    /\ (forall r, In r rs -> In r rs')
    /\ (forall r, In r (realms w) ->
          zulip_update_announcements_level r = None ->
          deactivated r = false ->
          string_id r <> SYSTEM_BOT_REALM ->
          In r rs)
    /\ (forall r, In r rs' ->
          In r (realms w) /\ deactivated r = false /\ string_id r <> SYSTEM_BOT_REALM).
Proof.
  intros Hle. unfold get_realms_behind_zulip_update_announcements_level.
  eexists. eexists. split; [reflexivity|]. split; [reflexivity|]. split; [|split].
  - intros r Hin. apply filter_In in Hin as [Hin Hsel]. apply filter_In.
    split; [exact Hin|].
    destruct (zulip_update_announcements_level r) as [l|]; [|exact Hsel].
    apply andb_true_iff in Hsel as [Hsel Hsys]. apply andb_true_iff in Hsel as [Hlt Hact].
    rewrite Hact, Hsys. apply Z.ltb_lt in Hlt.
    destruct (Z.ltb_spec l threshold'); [reflexivity|lia].
  - intros r Hin Hnone Hactive Hsys. apply filter_In. split; [exact Hin|].
    rewrite Hnone, Hactive. apply String.eqb_neq in Hsys. rewrite Hsys. reflexivity.
  - intros r Hin. apply filter_In in Hin as [Hin Hsel].
    apply andb_true_iff in Hsel as [Hsel Hsys]. apply andb_true_iff in Hsel as [_ Hact].
    split; [exact Hin|]. split.
    + destruct (deactivated r); [discriminate|reflexivity].
    + apply String.eqb_neq. destruct (String.eqb _ _); [discriminate|reflexivity].
Qed.

(** *** The re-read *)

Lemma to_realm_same_key (realm realm' : Realm) (skip_delay imported : bool) (w : World) :
  realm_id realm = realm_id realm' ->
  send_zulip_update_announcements_to_realm realm skip_delay imported w
  = send_zulip_update_announcements_to_realm realm' skip_delay imported w.
Proof.
  intros Hid.
  unfold send_zulip_update_announcements_to_realm, bind at 1 2 3 4, refresh_from_db.
  rewrite Hid. reflexivity.
Qed.

(** X2.  A run decides on the row it re-reads, never on the object it was
    given: two realm objects with the same identifier give the same
    outcome, whatever their other fields say.  When no row has that
    identifier any more, the run raises [DoesNotExist] without writing, and
    the sweep loop logs it and goes on. *)
Theorem run_ignores_stale_object (realm realm' : Realm) (skip_delay imported : bool)
    (rest : list Realm) (w : World) :
  realm_id realm = realm_id realm' ->
  send_zulip_update_announcements_to_realm realm skip_delay imported w
  = send_zulip_update_announcements_to_realm realm' skip_delay imported w
  /\ (stored w realm = None ->
      send_zulip_update_announcements_to_realm realm' skip_delay imported w
      = Raised DoesNotExist w
      /\ send_zulip_update_announcements_loop (realm' :: rest) skip_delay w
         = send_zulip_update_announcements_loop rest skip_delay
             (set_log (log w ++ [DoesNotExist]) w)).
Proof.
  intros Hid. split; [apply to_realm_same_key, Hid|].
  intros Hgone.
  assert (Hgone' : stored w realm' = None).
  { unfold stored in *. rewrite <- Hid. exact Hgone. }
  split; [apply to_realm_not_stored, Hgone'|].
  cbn [send_zulip_update_announcements_loop]. unfold bind at 1. unfold try_except.
  rewrite (to_realm_not_stored realm' skip_delay false w Hgone'). reflexivity.
Qed.

(** X3.  The two flags matter in one place each: [skip_delay] only for an
    organization at level 0 with a channel, the imported flag only for an
    organization that was never initialized.  Everywhere else the run is
    the same for both values. *)
Theorem flags_matter_in_one_branch_each (realm fresh : Realm) (skip_delay imported : bool)
    (w : World) :
  stored w realm = Some fresh ->
  (zulip_update_announcements_level fresh <> Some 0
   \/ zulip_update_announcements_stream fresh = None ->
   send_zulip_update_announcements_to_realm realm true imported w
   = send_zulip_update_announcements_to_realm realm false imported w)
  /\ (zulip_update_announcements_level fresh <> None ->
      send_zulip_update_announcements_to_realm realm skip_delay true w
      = send_zulip_update_announcements_to_realm realm skip_delay false w).
Proof.
  intros Hstored. rewrite !(to_realm_branches _ _ _ _ _ Hstored). split.
  - intros Hcase.
    destruct (zulip_update_announcements_level fresh) as [current|]; [|reflexivity].
    destruct (current <? latestLevel); [|reflexivity].
    destruct (zulip_update_announcements_stream fresh) as [stream|]; [|reflexivity].
    destruct Hcase as [Hnonzero|Hnone]; [|discriminate].
    unfold branch_stream. destruct (Z.eqb_spec current 0) as [->|_]; [|reflexivity].
    contradiction.
  - intros Hlevel.
    destruct (zulip_update_announcements_level fresh); [reflexivity|contradiction].
Qed.

(** *** The catch-up batch *)

Lemma levels_after_app (n m : nat) :
  forall current,
    levels_after current (n + m)
    = levels_after current n ++ levels_after (current + Z.of_nat n) m.
Proof.
  induction n as [|n IH]; intros current.
  - cbn. rewrite Z.add_0_r. reflexivity.
  - cbn [Nat.add levels_after app]. rewrite IH. do 3 f_equal. lia.
Qed.

Lemma prep_stream_messages_upto (current latest : Z) (sender : UserProfile)
    (realm : Realm) (stream : Stream) :
  zulip_update_announcements_stream realm = Some stream ->
  0 <= current -> latest <= latestLevel ->
  internal_prep_zulip_update_announcements_stream_messages current latest sender realm
  = inr (map (fun lvl =>
                internal_prep_stream_message sender stream
                  (ZULIP_UPDATE_ANNOUNCEMENTS_TOPIC_NAME (default_language realm))
                  (announcement_content lvl))
             (levels_after current (Z.to_nat (latest - current)))).
Proof.
  intros Hstream Hpos Hle.
  unfold internal_prep_zulip_update_announcements_stream_messages. rewrite Hstream.
  destruct (Z.le_gt_cases current latest) as [Hcl|Hcl].
  - replace latest with (current + Z.of_nat (Z.to_nat (latest - current))) at 2 by lia.
    rewrite stream_messages_loop_catalog by lia. reflexivity.
  - replace (Z.to_nat (latest - current)) with 0%nat by lia. reflexivity.
Qed.

(** X4.  Catching up in two steps prepares the same requests as catching up
    in one: for [0 <= a <= b <= c <= latestLevel] the batch from [a] to [c]
    is the batch from [a] to [b] followed by the batch from [b] to [c], and
    it holds [c - a] requests. *)
Theorem catch_up_batches_compose (a b c : Z) (sender : UserProfile)
    (realm : Realm) (stream : Stream) :
  zulip_update_announcements_stream realm = Some stream ->
  0 <= a -> a <= b -> b <= c -> c <= latestLevel ->
  exists first second,
    internal_prep_zulip_update_announcements_stream_messages a b sender realm = inr first
    /\ internal_prep_zulip_update_announcements_stream_messages b c sender realm = inr second
    /\ internal_prep_zulip_update_announcements_stream_messages a c sender realm
       = inr (first ++ second)
    /\ Z.of_nat (List.length (first ++ second)) = c - a.
Proof.
  intros Hstream Ha Hab Hbc Hc.
  rewrite !(prep_stream_messages_upto _ _ sender realm stream Hstream) by lia.
  eexists. eexists. split; [reflexivity|]. split; [reflexivity|].
  replace (Z.to_nat (c - a)) with (Z.to_nat (b - a) + Z.to_nat (c - b))%nat by lia.
  rewrite levels_after_app, map_app.
  replace (a + Z.of_nat (Z.to_nat (b - a))) with b by lia.
  split; [reflexivity|].
  rewrite length_app, !length_map, !levels_after_length. lia.
Qed.

Lemma message_for_level_error (lvl : Z) (e : Exn) :
  get_zulip_update_announcements_message_for_level lvl = inl e -> e = IndexError.
Proof.
  unfold get_zulip_update_announcements_message_for_level, py_getitem.
  destruct (_ && _); [|intros [= <-]; reflexivity].
  destruct (nth_error _ _); [discriminate|intros [= <-]; reflexivity].
Qed.

Lemma message_for_level_beyond (lvl : Z) :
  latestLevel < lvl ->
  get_zulip_update_announcements_message_for_level lvl = inl IndexError.
Proof.
  rewrite latestLevel_eq. intros Hl.
  unfold get_zulip_update_announcements_message_for_level.
  rewrite py_getitem_outside; [reflexivity|]. rewrite catalog_length. lia.
Qed.

Lemma stream_messages_loop_beyond_catalog (n : nat) :
  forall current sender stream topic acc,
    latestLevel < current + Z.of_nat (S n) ->
    stream_messages_loop (S n) current (current + Z.of_nat (S n)) sender stream topic acc
    = inl IndexError.
Proof.
  induction n as [|n IH]; intros current sender stream topic acc Hbeyond;
    cbn [stream_messages_loop];
    match goal with
    | |- context [?x <? ?y] => destruct (Z.ltb_spec x y) as [_|Hge]; [|lia]
    end.
  - rewrite message_for_level_beyond by lia. reflexivity.
  - destruct (get_zulip_update_announcements_message_for_level (current + 1))
      as [e|content] eqn:Hget.
    + rewrite (message_for_level_error _ _ Hget). reflexivity.
    + cbn [E_bind].
      replace (current + Z.of_nat (S (S n))) with (current + 1 + Z.of_nat (S n)) by lia.
      apply IH. lia.
Qed.

(** X5.  The edges of the catch-up batch: without a channel the
    preparation raises [AssertionError] whatever the levels are; with a
    channel and nothing to catch up ([latest_level <= current_level]) it
    returns the empty batch without looking at the catalog; and when the
    requested latest level lies beyond the catalog it raises [IndexError]
    instead of returning the levels that do exist. *)
Theorem catch_up_batch_edges (current latest : Z) (sender : UserProfile) (realm : Realm) :
  (zulip_update_announcements_stream realm = None ->
   internal_prep_zulip_update_announcements_stream_messages current latest sender realm
   = inl AssertionError)
  /\ (zulip_update_announcements_stream realm <> None ->
      latest <= current ->
      internal_prep_zulip_update_announcements_stream_messages current latest sender realm
      = inr [])
  /\ (zulip_update_announcements_stream realm <> None ->
      current < latest ->
      latestLevel < latest ->
      internal_prep_zulip_update_announcements_stream_messages current latest sender realm
      = inl IndexError).
Proof.
  unfold internal_prep_zulip_update_announcements_stream_messages.
  destruct (zulip_update_announcements_stream realm) as [stream|].
  - split; [discriminate|]. split.
    + intros _ Hle. replace (Z.to_nat (latest - current)) with 0%nat by lia. reflexivity.
    + intros _ Hlt Hbeyond.
      replace (Z.to_nat (latest - current)) with (S (Z.to_nat (latest - current - 1))) by lia.
      replace latest
        with (current + Z.of_nat (S (Z.to_nat (latest - current - 1)))) at 2 by lia.
      apply stream_messages_loop_beyond_catalog. lia.
  - split; [reflexivity|]. split; intros Hsome; contradiction.
Qed.

(** *** The commit *)

(** X6.  When the organization's row is gone at the moment of the save, the
    commit raises [DatabaseError] and the transaction leaves nothing
    behind: the messages already stored and the audit event already
    created are rolled back with it. *)
Theorem commit_without_row_rolls_back (realm : Realm) (new_level : Z)
    (reqs : list (option SendMessageRequest)) (w : World) :
  existsb (fun r => realm_id r =? realm_id realm) (realms w) = false ->
  transport_failure (prepared reqs) (messages w) = None ->
  send_messages_and_update_level realm new_level reqs w = Raised DatabaseError w
  /\ (reqs <> [] ->
      messages (state_of (do_send_messages reqs w)) = messages w ++ sent_rows w reqs).
Proof.
  intros Hgone Hsend. split.
  - unfold send_messages_and_update_level, atomic, bind, ret, timezone_now,
      RealmAuditLog_create, save_zulip_update_announcements_level, do_send_messages.
    destruct reqs as [|r reqs]; cbn.
    + rewrite Hgone. destruct w; reflexivity.
    + cbn in Hsend. rewrite Hsend. cbn. rewrite Hgone. destruct w; reflexivity.
  - intros _. unfold do_send_messages. rewrite Hsend. reflexivity.
Qed.

(** X7.  Whatever happens, a per-organization run either leaves the world
    exactly as it was or performs one transition: the re-read row gets the
    new level, exactly one audit event is appended, which names the
    organization, carries the current time, the previous level as old
    value, the new level as new value and the identifiers of exactly the
    message rows that were added; the rows of the other organizations, the
    clock and the log are untouched. *)
Theorem run_writes_one_transition (realm : Realm) (skip_delay imported : bool) (w : World) :
  let w' := state_of (send_zulip_update_announcements_to_realm realm skip_delay imported w) in
  w' = w
  \/ exists fresh new_level row rows,
       stored w realm = Some fresh
       /\ stored w' realm = Some (with_level fresh (Some new_level))
       /\ audit_logs w' = audit_logs w ++ [row]
       /\ audit_realm row = realm_id realm
       /\ event_time row = now w
       /\ OLD_VALUE (extra_data row) = zulip_update_announcements_level fresh
       /\ NEW_VALUE (extra_data row) = new_level
       /\ messages w' = messages w ++ rows
       /\ zulip_update_announcements_message_ids (extra_data row) = map message_id rows
       /\ (forall r, In r (realms w) -> realm_id r <> realm_id realm -> In r (realms w'))
       /\ now w' = now w
       /\ log w' = log w.
Proof.
  intros w'. subst w'. destruct (stored w realm) as [fresh|] eqn:Hstored.
  - destruct (stored_exists _ _ _ Hstored) as [_ Hid].
    destruct (to_realm_cases realm fresh skip_delay imported w Hstored)
      as [(e & ->) | [(-> & _) | (new_level & rows & -> & _)]];
      [left; reflexivity..|].
    right. exists fresh, new_level,
      (level_change_row fresh new_level (now w) (map message_id rows)), rows.
    cbn [state_of]. split; [reflexivity|].
    split; [apply stored_atomic_commit, Hstored|].
    repeat (split; [first [reflexivity | exact Hid]|]).
    split; [|split; reflexivity].
    intros r Hin Hother. cbn [atomic_commit realms]. apply in_map_iff. exists r.
    split; [|exact Hin]. rewrite Hid.
    destruct (Z.eqb_spec (realm_id r) (realm_id realm)); [contradiction|reflexivity].
  - rewrite to_realm_not_stored by exact Hstored. left. reflexivity.
Qed.

(** *** The footprint of runs *)

Lemma touches_only_refl (ids : list Z) (w w' : World) :
  realms w' = realms w -> audit_logs w' = audit_logs w -> messages w' = messages w ->
  now w' = now w -> touches_only ids w w'.
Proof.
  intros Hrealms Hlogs Hmessages Hnow. unfold touches_only.
  rewrite Hrealms, Hlogs, Hmessages. split; [exact Hnow|]. split; [|split].
  - clear. induction (realms w) as [|r l IH]; constructor; auto.
  - exists []. rewrite app_nil_r. split; [reflexivity|constructor].
  - exists []. rewrite app_nil_r. reflexivity.
Qed.

Lemma touches_only_trans (ids : list Z) (w1 w2 w3 : World) :
  touches_only ids w1 w2 -> touches_only ids w2 w3 -> touches_only ids w1 w3.
Proof.
  intros (Hnow12 & Hrows12 & (new12 & Hlog12 & Hnew12) & (m12 & Hm12))
         (Hnow23 & Hrows23 & (new23 & Hlog23 & Hnew23) & (m23 & Hm23)).
  split; [congruence|]. split; [|split].
  - revert Hrows23. generalize (realms w3).
    induction Hrows12 as [|r1 r2 l1 l2 Hr _ IH]; intros l3 Hrows23;
      inversion Hrows23 as [|? r3 ? l3' Hr' Hrest]; subst; constructor; [|apply IH, Hrest].
    destruct Hr as [->|(Hin & lvl & ->)]; [exact Hr'|].
    destruct Hr' as [->|(_ & lvl' & ->)]; right; (split; [exact Hin|]); eexists; reflexivity.
  - exists (new12 ++ new23). split.
    + rewrite Hlog23, Hlog12, app_assoc. reflexivity.
    + apply Forall_app. split; [exact Hnew12|].
      rewrite Hnow12 in Hnew23. exact Hnew23.
  - exists (m12 ++ m23). rewrite Hm23, Hm12, app_assoc. reflexivity.
Qed.

Lemma touches_only_more (ids ids' : list Z) (w w' : World) :
  (forall i, In i ids -> In i ids') -> touches_only ids w w' -> touches_only ids' w w'.
Proof.
  intros Hsub (Hnow & Hrows & (new & Hlog & Hnew) & Hmessages).
  split; [exact Hnow|]. split; [|split; [|exact Hmessages]].
  - induction Hrows as [|r r' l l' Hr _ IH]; constructor; [|exact IH].
    destruct Hr as [->|(Hin & Hlvl)]; [left; reflexivity|right; auto].
  - exists new. split; [exact Hlog|].
    eapply Forall_impl; [|exact Hnew]. intros row (Hin & Hrest). auto.
Qed.

Lemma to_realm_touches_only (realm : Realm) (skip_delay imported : bool) (w : World) :
  touches_only [realm_id realm] w
    (state_of (send_zulip_update_announcements_to_realm realm skip_delay imported w)).
Proof.
  destruct (stored w realm) as [fresh|] eqn:Hstored.
  - destruct (stored_exists _ _ _ Hstored) as [_ Hid].
    destruct (to_realm_cases realm fresh skip_delay imported w Hstored)
      as [(e & ->) | [(-> & _) | (new_level & rows & -> & _)]];
      [apply touches_only_refl; reflexivity..|].
    cbn [state_of]. split; [reflexivity|]. split; [|split].
    + cbn [atomic_commit realms]. apply Forall2_map_right. intros r _.
      destruct (Z.eqb_spec (realm_id r) (realm_id fresh)) as [Hsame|_];
        [right|left; reflexivity].
      split; [left; congruence|eexists; reflexivity].
    + eexists. split; [reflexivity|]. constructor; [|constructor].
      cbn. split; [left; symmetry; exact Hid|]. split; reflexivity.
    + eexists. reflexivity.
  - rewrite to_realm_not_stored by exact Hstored. apply touches_only_refl; reflexivity.
Qed.

Lemma loop_touches_only (rs : list Realm) (skip_delay : bool) (w : World) :
  touches_only (map realm_id rs) w
    (state_of (send_zulip_update_announcements_loop rs skip_delay w)).
Proof.
  revert w. induction rs as [|realm rest IH]; intros w; cbn [send_zulip_update_announcements_loop].
  - apply touches_only_refl; reflexivity.
  - pose proof (to_realm_touches_only realm skip_delay false w) as Hstep.
    apply (touches_only_more _ (map realm_id (realm :: rest))) in Hstep;
      [|intros i [<-|[]]; left; reflexivity].
    unfold bind, try_except, logging_exception.
    destruct (send_zulip_update_announcements_to_realm realm skip_delay false w)
      as [[] w1|e w1]; cbn [state_of] in Hstep.
    + eapply touches_only_trans; [exact Hstep|].
      eapply touches_only_more; [|apply IH]. intros i Hin. right. exact Hin.
    + eapply touches_only_trans; [exact Hstep|].
      eapply touches_only_trans;
        [apply (touches_only_refl _ w1 (set_log (log w1 ++ [e]) w1)); reflexivity|].
      eapply touches_only_more; [|apply IH]. intros i Hin. right. exact Hin.
Qed.

Lemma touches_only_keys (ids : list Z) (w w' : World) :
  touches_only ids w w' -> map realm_id (realms w') = map realm_id (realms w).
Proof.
  intros (_ & Hrows & _). induction Hrows as [|r r' l l' Hr _ IH]; cbn; [reflexivity|].
  rewrite IH. destruct Hr as [->|(_ & lvl & ->)]; reflexivity.
Qed.

Lemma touches_only_other_row (ids : list Z) (w w' : World) (x : Realm) :
  touches_only ids w w' -> In x (realms w) -> ~ In (realm_id x) ids -> In x (realms w').
Proof.
  intros (_ & Hrows & _) Hin Hother.
  induction Hrows as [|r r' l l' Hr _ IH]; [contradiction|].
  destruct Hin as [->|Hin]; [|right; apply IH, Hin].
  destruct Hr as [->|(Hids & _)]; [left; reflexivity|contradiction].
Qed.

Lemma run_touches_only (r : Run) (w : World) :
  exists ids, touches_only ids w (run r w).
Proof.
  destruct r as [skip_delay|realm skip_delay imported]; cbn [run]; eexists.
  - rewrite sweep_is_loop. apply loop_touches_only.
  - apply to_realm_touches_only.
Qed.

(** X8.  A sweep never touches an organization it did not select: for a
    realm table with distinct identifiers, the row of an organization that
    is deactivated, is the system realm or is not behind is the same after
    the sweep, and none of the audit events the sweep appended is about
    it. *)
Theorem sweep_leaves_unselected_untouched (skip_delay : bool) (w : World) (x : Realm) :
  NoDup (map realm_id (realms w)) ->
  In x (realms w) ->
  eligible x = false ->
  let w' := state_of (send_zulip_update_announcements skip_delay w) in
  stored w' x = Some x
  /\ exists new,
       audit_logs w' = audit_logs w ++ new
       /\ Forall (fun row => audit_realm row <> realm_id x) new.
Proof.
  intros Hnodup Hin Hnot w'. subst w'. rewrite sweep_is_loop.
  pose proof (loop_touches_only (behind w) skip_delay w) as Htouch.
  assert (Hother : ~ In (realm_id x) (map realm_id (behind w))).
  { intros Hsel. apply in_map_iff in Hsel as (y & Hid & Hy).
    apply behind_eligible in Hy as [Hy Hyes].
    assert (y = x) by (apply (unique_key (realms w)); assumption).
    subst y. rewrite Hyes in Hnot. discriminate. }
  split.
  - apply stored_unique; [|eapply touches_only_other_row; eassumption|reflexivity].
    rewrite (touches_only_keys _ _ _ Htouch). exact Hnodup.
  - destruct Htouch as (_ & _ & (new & Hlog & Hnew) & _). exists new.
    split; [exact Hlog|]. eapply Forall_impl; [|exact Hnew].
    intros row (Hrow & _) Hsame. apply Hother. rewrite <- Hsame. exact Hrow.
Qed.

Lemma loop_log_bound (rs : list Realm) (skip_delay : bool) (w w1 : World) :
  send_zulip_update_announcements_loop rs skip_delay w = Returned tt w1 ->
  exists l, log w1 = log w ++ l /\ (List.length l <= List.length rs)%nat.
Proof.
  revert w. induction rs as [|realm rest IH]; intros w; cbn [send_zulip_update_announcements_loop].
  - intros [= <-]. exists []. split; [symmetry; apply app_nil_r|reflexivity].
  - unfold bind, try_except, logging_exception.
    destruct (send_zulip_update_announcements_to_realm realm skip_delay false w)
      as [[] w'|e w'] eqn:Hrun; intros Hrest; destruct (IH _ Hrest) as (l & Hl & Hlen).
    + exists l. rewrite Hl, (to_realm_returned_log _ _ _ _ _ Hrun).
      split; [reflexivity|]. cbn [List.length]. lia.
    + exists ([e] ++ l). rewrite Hl. cbn [set_log log].
      rewrite (to_realm_raise_unchanged _ _ _ _ _ _ Hrun), <- app_assoc.
      split; [reflexivity|]. cbn [List.length app]. lia.
Qed.

(** X9.  A sweep never raises: whatever the per-organization runs do, it
    returns, having logged at most one exception per selected
    organization; and when no organization is behind it returns the world
    exactly as it was. *)
Theorem sweep_always_returns (skip_delay : bool) (w : World) :
  exists w' l,
    send_zulip_update_announcements skip_delay w = Returned tt w'
    /\ log w' = log w ++ l
    /\ (List.length l <= List.length (behind w))%nat
    /\ (behind w = [] -> w' = w).
Proof.
  rewrite sweep_is_loop.
  destruct (loop_returns (behind w) skip_delay w) as (w' & Hloop).
  destruct (loop_log_bound _ _ _ _ Hloop) as (l & Hl & Hlen).
  exists w', l. split; [exact Hloop|]. split; [exact Hl|]. split; [exact Hlen|].
  intros Hnone. rewrite Hnone in Hloop. cbn in Hloop. injection Hloop as <-. reflexivity.
Qed.

(** *** The onboarding event *)

(** X10.  The onboarding event of an organization is permanent: once the
    audit log holds one, no sequence of runs, interleaved with the
    environment, makes the lookup return another event or none. *)
Theorem onboarding_event_is_permanent (w w' : World) (realm : Realm)
    (auditlog : RealmAuditLog) :
  evolves w w' ->
  onboarding_event w realm = Some auditlog ->
  onboarding_event w' realm = Some auditlog.
Proof.
  intros Hevolves. induction Hevolves as [w|r w w' _ IH|w w1 w' Henv _ IH]; intros Hevent.
  - exact Hevent.
  - apply IH. destruct (run_touches_only r w) as (ids & _ & _ & (new & Hlog & _) & _).
    unfold onboarding_event in *. rewrite Hlog, find_append, Hevent. reflexivity.
  - apply IH. destruct Henv as (_ & _ & Hlog).
    unfold onboarding_event in *. rewrite Hlog. exact Hevent.
Qed.

(** X11.  The onboarding commit writes the event that anchors the delay
    windows.  For an organization that was never initialized and has no
    onboarding event yet, a run that returns (without the imported flag)
    leaves an onboarding event stamped with the current time and the new
    value 0, and a run repeated at once with [skip_delay = false] waits:
    it returns the world unchanged, with or without a channel. *)
Theorem onboarding_commit_opens_the_windows (realm fresh : Realm) (skip_delay : bool)
    (w w' : World) :
  stored w realm = Some fresh ->
  zulip_update_announcements_level fresh = None ->
  onboarding_event w fresh = None ->
  send_zulip_update_announcements_to_realm realm skip_delay false w = Returned tt w' ->
  (exists auditlog,
     onboarding_event w' fresh = Some auditlog
     /\ event_time auditlog = now w'
     /\ NEW_VALUE (extra_data auditlog) = 0)
  /\ stored w' realm = Some (with_level fresh (Some 0))
  /\ forall imported,
       send_zulip_update_announcements_to_realm realm false imported w' = Returned tt w'.
Proof.
  intros Hstored Hlevel Hevent Hrun.
  destruct (to_realm_cases realm fresh skip_delay false w Hstored)
    as [(e & He) | [(_ & Hwait & _) | (new_level & rows & Hcommit & Hkind)]].
  - rewrite He in Hrun. discriminate.
  - destruct Hwait as (current & _ & Hsome & _). congruence.
  - rewrite Hlevel in Hkind. subst new_level.
    rewrite Hcommit in Hrun. injection Hrun as <-.
    assert (Hnew : onboarding_event (atomic_commit fresh 0 rows w) fresh
                   = Some (level_change_row fresh 0 (now w) (map message_id rows))).
    { unfold onboarding_event in *. cbn [atomic_commit audit_logs].
      rewrite find_append, Hevent. cbn [find].
      unfold is_level_none_to_initial, level_change_row. cbn.
      rewrite Z.eqb_refl, Hlevel. reflexivity. }
    pose proof (stored_atomic_commit w realm fresh 0 rows Hstored) as Hrow.
    split; [eexists; split; [exact Hnew|split; reflexivity]|]. split; [exact Hrow|].
    intros imported. apply waiting_returns with (fresh := with_level fresh (Some 0));
      [exact Hrow|].
    exists 0, (level_change_row fresh 0 (now w) (map message_id rows)).
    split; [reflexivity|]. split; [rewrite latestLevel_eq; lia|]. split.
    + rewrite <- Hnew. apply onboarding_event_same_key. reflexivity.
    + cbn. rewrite Z.sub_diag.
      destruct (zulip_update_announcements_stream fresh); unfold timedelta; lia.
Qed.

(** X12.  The delay check is a strict comparison and only reads.  For a
    number of days that a [timedelta] can hold, and with an onboarding
    event, it returns whether strictly less than [days] days have passed
    since the event, leaving the world as it is.  So exactly [days] days
    after the event the organization is no longer inside the window, and
    being inside a window implies being inside every longer one. *)
Theorem delay_check_bounds (realm : Realm) (days : Z) (auditlog : RealmAuditLog) (w : World) :
  onboarding_event w realm = Some auditlog ->
  - timedelta_max_days <= days <= timedelta_max_days ->
  (exists inside,
     is_group_direct_message_sent_to_admins_within_days realm days w = Returned inside w
     /\ (inside = true <-> now w - event_time auditlog < days * 86400000000))
  /\ (now w = event_time auditlog + days * 86400000000 ->
      is_group_direct_message_sent_to_admins_within_days realm days w = Returned false w)
  /\ (forall longer, days <= longer <= timedelta_max_days ->
        is_group_direct_message_sent_to_admins_within_days realm days w = Returned true w ->
        is_group_direct_message_sent_to_admins_within_days realm longer w = Returned true w).
Proof.
  intros Hevent _.
  assert (Hcheck : forall d,
    is_group_direct_message_sent_to_admins_within_days realm d w
    = Returned (now w - event_time auditlog <? d * 86400000000) w).
  { intros d. unfold is_group_direct_message_sent_to_admins_within_days, bind,
      get_level_none_to_initial_auditlog, timezone_now, ret.
    unfold onboarding_event in Hevent. rewrite Hevent. reflexivity. }
  split; [|split].
  - eexists. split; [apply Hcheck|]. apply Z.ltb_lt.
  - intros Hexact. rewrite Hcheck. f_equal. apply Z.ltb_ge. lia.
  - intros longer [Hle _]. rewrite !Hcheck. intros [= Hinside]. f_equal.
    apply Z.ltb_lt in Hinside. apply Z.ltb_lt. lia.
Qed.


(** X14.  An organization that never configures a channel forfeits the
    catalog.  After its onboarding commit, and with nothing but the clock
    moving, a run less than seven days later waits, whatever [skip_delay]
    is; a run seven days later or more commits [latestLevel] with an empty
    batch, so that the administrators' message remains the only one the
    organization ever received. *)
Theorem unconfigured_organization_forfeits (realm fresh : Realm) (skip_delay : bool)
    (dt : Z) (w w1 : World) :
  stored w realm = Some fresh ->
  zulip_update_announcements_level fresh = None ->
  zulip_update_announcements_stream fresh = None ->
  onboarding_event w fresh = None ->
  send_zulip_update_announcements_to_realm realm skip_delay false w = Returned tt w1 ->
  let later := advance_clock dt w1 in
  let onboarded := with_level fresh (Some 0) in
  (dt < timedelta 7 ->
   forall skip_delay' imported,
     send_zulip_update_announcements_to_realm realm skip_delay' imported later
     = Returned tt later)
  /\ (timedelta 7 <= dt ->
      forall skip_delay' imported,
        send_zulip_update_announcements_to_realm realm skip_delay' imported later
        = Returned tt (atomic_commit onboarded latestLevel [] later)
        /\ messages (atomic_commit onboarded latestLevel [] later) = messages w1
        /\ stored (atomic_commit onboarded latestLevel [] later) realm
           = Some (with_level fresh (Some latestLevel))).
Proof.
  intros Hstored Hlevel Hstream Hevent Hrun later onboarded.
  destruct (to_realm_cases realm fresh skip_delay false w Hstored)
    as [(e & He) | [(_ & Hwait & _) | (new_level & rows & Hcommit & Hkind)]].
  - rewrite He in Hrun. discriminate.
  - destruct Hwait as (current & _ & Hsome & _). congruence.
  - rewrite Hlevel in Hkind. subst new_level.
    rewrite Hcommit in Hrun. injection Hrun as <-.
    pose proof (stored_atomic_commit w realm fresh 0 rows Hstored) as Hrow.
    assert (Hrow' : stored later realm = Some onboarded) by exact Hrow.
    destruct (stored_exists _ _ _ Hrow') as [Hexists _].
    assert (Hnew : onboarding_event later onboarded
                   = Some (level_change_row fresh 0 (now w) (map message_id rows))).
    { unfold onboarding_event in *. cbn [later advance_clock atomic_commit audit_logs].
      rewrite find_append.
      replace (find (is_level_none_to_initial onboarded) (audit_logs w)) with (@None RealmAuditLog)
        by (symmetry; exact Hevent).
      cbn [find]. unfold is_level_none_to_initial, level_change_row. cbn.
      rewrite Z.eqb_refl, Hlevel. reflexivity. }
    assert (Helapsed : now later - now w = dt) by (cbn; lia).
    split.
    + intros Hearly skip_delay' imported.
      rewrite (to_realm_branches _ _ _ _ _ Hrow'). cbn [onboarded with_level
        zulip_update_announcements_level zulip_update_announcements_stream].
      rewrite Hstream. change (0 <? latestLevel) with true. cbn iota.
      unfold branch_no_stream. rewrite Hnew. cbn [level_change_row event_time].
      rewrite Helapsed. destruct (Z.ltb_spec dt (timedelta 7)); [reflexivity|lia].
    + intros Hlate skip_delay' imported. split; [|split].
      * rewrite (to_realm_branches _ _ _ _ _ Hrow'). cbn [onboarded with_level
          zulip_update_announcements_level zulip_update_announcements_stream].
        rewrite Hstream. change (0 <? latestLevel) with true. cbn iota.
        unfold branch_no_stream. rewrite Hnew. cbn [level_change_row event_time].
        rewrite Helapsed. destruct (Z.ltb_spec dt (timedelta 7)); [lia|].
        apply send_messages_and_update_level_spec, Hexists.
      * cbn. apply app_nil_r.
      * apply (stored_atomic_commit later realm onboarded latestLevel [] Hrow').
Qed.

Lemma run_all_touches_only (rs : list Run) (w : World) :
  exists ids, touches_only ids w (run_all rs w).
Proof.
  revert w. induction rs as [|r rest IH]; intros w; cbn [run_all].
  - exists []. apply touches_only_refl; reflexivity.
  - destruct (run_touches_only r w) as (ids1 & H1).
    destruct (IH (run r w)) as (ids2 & H2).
    exists (ids1 ++ ids2). eapply touches_only_trans.
    + eapply touches_only_more; [|exact H1]. intros i Hi. apply in_or_app. left. exact Hi.
    + eapply touches_only_more; [|exact H2]. intros i Hi. apply in_or_app. right. exact Hi.
Qed.

(** X15.  Runs only ever append and only ever write the level column.
    After any sequence of sweeps and per-organization runs the audit log
    and the message table are the old ones with rows added at the end, the
    clock has not moved, and every row of the realm table is the old row,
    or the old row with a non-null level in place of its level: no run
    resets a level to null, deletes a row or changes a channel. *)
Theorem runs_append_and_write_levels_only (rs : list Run) (w : World) :
  let w' := run_all rs w in
  (exists new, audit_logs w' = audit_logs w ++ new)
  /\ (exists rows, messages w' = messages w ++ rows)
  /\ now w' = now w
  /\ Forall2 (fun r r' => r' = r \/ exists lvl, r' = with_level r (Some lvl))
       (realms w) (realms w').
Proof.
  intros w'. subst w'.
  destruct (run_all_touches_only rs w)
    as (ids & Hnow & Hrows & (new & Hlog & _) & Hmessages).
  split; [exists new; exact Hlog|]. split; [exact Hmessages|]. split; [exact Hnow|].
  induction Hrows as [|r r' l l' Hr _ IH]; constructor; [|exact IH].
  destruct Hr as [->|(_ & Hlvl)]; [left; reflexivity|right; exact Hlvl].
Qed.
Lemma run_all_evolves (rs : list Run) (w : World) : evolves w (run_all rs w).
Proof.
  revert w. induction rs as [|r rest IH]; intros w; cbn.
  - apply evolves_done.
  - eapply evolves_run. apply IH.
Qed.

End Properties.

(** ** The properties on the concrete deployment *)

Module Scenarios.
Import Demo.
#[local] Existing Instance collaborators.

(** Level 0 is outside [1, latestLevel], yet the lookup returns the text of
    the last level instead of raising. *)
Lemma message_for_level_zero_returns :
  ~ (1 <= 0 <= latestLevel)
  /\ get_zulip_update_announcements_message_for_level 0
     = get_zulip_update_announcements_message_for_level latestLevel
  /\ get_zulip_update_announcements_message_for_level 0 <> inl IndexError.
Proof.
  split; [lia|]. split; [reflexivity|]. vm_compute. discriminate.
Qed.

(** The assertion of the delay check, on an organization at level 0 whose
    audit log is empty. *)
Lemma level_zero_without_onboarding_event_asserts_witness :
  let realm := org 1 (Some 0) (Some announce) in
  let w := world [realm] [] 0 in
  stored w realm = Some realm
  /\ zulip_update_announcements_level realm = Some 0
  /\ zulip_update_announcements_stream realm = Some announce
  /\ onboarding_event w realm = None
  /\ send_zulip_update_announcements_to_realm realm true false w = Raised AssertionError w
  /\ send_zulip_update_announcements_to_realm realm false false w = Raised AssertionError w.
Proof.
  intros realm w.
  assert (Hstored : stored w realm = Some realm) by reflexivity.
  assert (Hevent : onboarding_event w realm = None) by reflexivity.
  destruct (level_zero_without_onboarding_event_asserts realm realm announce w
              Hstored eq_refl eq_refl Hevent) as [_ Hrun].
  repeat split; apply Hrun.
Defined.

(** A caught-up organization met by the sweep loop. *)
Lemma entry_assertion_fails_loudly_witness :
  let realm := org 1 (Some 6) (Some announce) in
  let other := org 2 None None in
  let w := world [realm; other] [] 0 in
  stored w realm = Some realm
  /\ zulip_update_announcements_level realm = Some 6
  /\ latestLevel <= 6
  /\ send_zulip_update_announcements_to_realm realm false false w = Raised AssertionError w
  /\ send_zulip_update_announcements_loop [realm; other] false w
     = send_zulip_update_announcements_loop [other] false
         (set_log (log w ++ [AssertionError]) w).
Proof.
  intros realm other w.
  assert (Hstored : stored w realm = Some realm) by reflexivity.
  assert (Hle : latestLevel <= 6) by (vm_compute; discriminate).
  destruct (entry_assertion_fails_loudly realm realm 6 false [other] w
              Hstored eq_refl Hle) as [Hrun Hloop].
  repeat split; try exact Hle; try apply Hrun; try exact Hloop.
Defined.

(** An organization at the latest level without a channel and without an
    onboarding event: the run raises and writes no audit event. *)
Lemma level_six_without_channel_asserts :
  let realm := org 1 (Some 6) None in
  let w := world [realm] [] 0 in
  zulip_update_announcements_level realm = Some latestLevel
  /\ zulip_update_announcements_stream realm = None
  /\ onboarding_event w realm = None
  /\ send_zulip_update_announcements_to_realm realm false false w = Raised AssertionError w
  /\ audit_logs w = [].
Proof. cbv zeta. repeat split. Qed.

(** Eight days after onboarding, without a channel. *)
Lemma no_channel_grace_window_witness :
  let realm := org 1 (Some 3) None in
  let w := world [realm] [onboarded 1 0 0] (8 * 24 * hour) in
  stored w realm = Some realm
  /\ zulip_update_announcements_level realm = Some 3
  /\ 3 < latestLevel
  /\ zulip_update_announcements_stream realm = None
  /\ send_zulip_update_announcements_to_realm realm false false w
     = Returned tt (atomic_commit realm latestLevel [] w)
  /\ messages (atomic_commit realm latestLevel [] w) = messages w.
Proof.
  intros realm w.
  assert (Hstored : stored w realm = Some realm) by reflexivity.
  assert (Hlt : 3 < latestLevel) by reflexivity.
  destruct (no_channel_grace_window realm realm 3 false false w
              Hstored eq_refl Hlt eq_refl) as [Hold _].
  destruct Hold as (Hrun & Hmessages & _).
  { right. exists (onboarded 1 0 0). split; [reflexivity|]. vm_compute. discriminate. }
  repeat split; assumption.
Defined.

(** An imported organization that was never initialized. *)
Lemma never_initialized_onboarding_witness :
  let realm := org 1 None None in
  let w := world [realm] [] 0 in
  stored w realm = Some realm
  /\ zulip_update_announcements_level realm = None
  /\ exists w' request,
       send_zulip_update_announcements_to_realm realm false true w = Returned tt w'
       /\ stored w' realm = Some (with_level realm (Some latestLevel))
       /\ messages w' = [ {| message_id := 1; message_request := request |} ]
       /\ request_audience request = ToUsers (get_human_admin_users realm)
       /\ send_zulip_update_announcements_to_realm realm false false w'
          = Raised AssertionError w'.
Proof.
  intros realm w.
  assert (Hstored : stored w realm = Some realm) by reflexivity.
  split; [exact Hstored|]. split; [reflexivity|].
  destruct (never_initialized_onboarding realm realm false true w Hstored eq_refl)
    as (_ & _ & Hafter).
  eexists. eexists. split; [vm_compute; reflexivity|].
  destruct (Hafter _ ltac:(vm_compute; reflexivity)) as (Hnew & _ & Hone & _ & Hdone).
  split; [exact Hnew|]. split; [exact (Hone _ eq_refl)|]. split; [reflexivity|].
  destruct (Hdone eq_refl) as [_ Hassert]. apply Hassert.
Defined.


(** From level 5 with an empty topic the run sends two messages, the
    introduction and level 6, while [latestLevel - 5 = 1]. *)
Lemma catch_up_with_introduction_sends_one_more :
  let realm := org 1 (Some 5) (Some announce) in
  let w := world [realm] [] 0 in
  exists w',
    send_zulip_update_announcements_to_realm realm false false w = Returned tt w'
    /\ map zulip_update_announcements_level (realms w') = [Some latestLevel]
    /\ messages w = []
    /\ List.length (messages w') = 2%nat
    /\ latestLevel - 5 = 1.
Proof.
  cbv zeta. eexists. split; [vm_compute; reflexivity|]. repeat split.
Qed.

(** Twenty-five hours after onboarding, with a channel and an empty topic. *)
Lemma catch_up_sends_every_level_in_order_witness :
  let realm := org 1 (Some 0) (Some announce) in
  let w := world [realm] [onboarded 1 0 0] (25 * hour) in
  stored w realm = Some realm
  /\ zulip_update_announcements_level realm = Some 0
  /\ 0 <= 0 < latestLevel
  /\ zulip_update_announcements_stream realm = Some announce
  /\ recipient_id announce = Some 7
  /\ (exists auditlog, onboarding_event w realm = Some auditlog
        /\ (false = true \/ timedelta 1 <= now w - event_time auditlog))
  /\ exists w' introductory catalog_rows,
       send_zulip_update_announcements_to_realm realm false false w = Returned tt w'
       /\ stored w' realm = Some (with_level realm (Some latestLevel))
       /\ messages w' = messages w ++ introductory ++ catalog_rows
       /\ List.length introductory = 1%nat
       /\ Z.of_nat (List.length catalog_rows) = latestLevel - 0.
Proof.
  intros realm w.
  assert (Hstored : stored w realm = Some realm) by reflexivity.
  assert (Hrange : 0 <= 0 < latestLevel) by (split; [discriminate|reflexivity]).
  assert (Hdelay : exists auditlog, onboarding_event w realm = Some auditlog
            /\ (false = true \/ timedelta 1 <= now w - event_time auditlog)).
  { exists (onboarded 1 0 0). split; [reflexivity|]. right. vm_compute. discriminate. }
  destruct (catch_up_sends_every_level_in_order realm realm 0 announce 7 false false w
              Hstored eq_refl Hrange eq_refl eq_refl (fun _ => Hdelay))
    as (Hrun & _ & _ & _ & Hafter).
  repeat (split; [first [assumption | reflexivity | discriminate]|]).
  pose (w' := state_of (send_zulip_update_announcements_to_realm realm false false w)).
  assert (Hreturned : send_zulip_update_announcements_to_realm realm false false w
                      = Returned tt w') by (vm_compute; reflexivity).
  destruct (Hafter w' Hreturned) as (Hnew & _ & Hrows).
  destruct Hrows as (introductory & catalog_rows & Hmessages & Hone & Hcount & _).
  { intros request Hin. apply in_app_or in Hin as [Hin|Hin].
    - vm_compute in Hin. destruct Hin as [<-|[]]. discriminate.
    - unfold catalog_requests in Hin. apply in_map_iff in Hin as (lvl & <- & _).
      cbn. discriminate. }
  exists w', introductory, catalog_rows.
  split; [exact Hreturned|]. split; [exact Hnew|]. split; [exact Hmessages|].
  split; [exact Hone|exact Hcount].
Defined.

(** The transport stores the first message of the batch and then fails. *)
Lemma failed_send_commits_nothing_witness :
  let realm := org 1 (Some 4) (Some broken) in
  let w := world [realm] [] 0 in
  to_broken <> []
  /\ transport_failure (prepared to_broken) (messages w) = Some 1%nat
  /\ List.length (messages (state_of (do_send_messages to_broken w))) = 1%nat
  /\ send_messages_and_update_level realm 6 to_broken w = Raised TransportFailure w
  /\ send_zulip_update_announcements_to_realm realm false false w
     = Raised TransportFailure w.
Proof.
  intros realm w.
  assert (Hne : to_broken <> []) by discriminate.
  assert (Hfail : transport_failure (prepared to_broken) (messages w) = Some 1%nat)
    by reflexivity.
  destruct (failed_send_commits_nothing realm 6 to_broken 1 w Hne Hfail)
    as (Hsend & (w' & Hcommit & _) & Hrun).
  split; [exact Hne|]. split; [exact Hfail|]. split; [rewrite Hsend; reflexivity|].
  split; [rewrite Hcommit; f_equal; apply (commit_raise_unchanged _ _ _ _ _ _ Hcommit)|].
  vm_compute. reflexivity.
Defined.

(** Two sweeps and a manual run on two organizations. *)
Lemma levels_monotone_and_bounded_witness :
  let w' := run_all [Sweep true; ForOrganization (org 1 None None) true false; Sweep false]
              two_organizations in
  evolves two_organizations w'
  /\ NoDup (map realm_id (realms two_organizations))
  /\ Forall (fun r => level_in_range (zulip_update_announcements_level r))
       (realms two_organizations)
  /\ Forall (fun r => level_in_range (zulip_update_announcements_level r)) (realms w')
  /\ map zulip_update_announcements_level (realms w') = [Some 6; Some 6].
Proof.
  intros w'.
  assert (Hevolves : evolves two_organizations w') by apply run_all_evolves.
  assert (Hnodup : NoDup (map realm_id (realms two_organizations))).
  { cbn. repeat constructor; cbn; intuition discriminate. }
  assert (Hrange : Forall (fun r => level_in_range (zulip_update_announcements_level r))
                     (realms two_organizations)).
  { repeat first [apply Forall_nil | apply Forall_cons]; vm_compute; intuition discriminate. }
  destruct (levels_monotone_and_bounded two_organizations w' Hevolves Hnodup Hrange)
    as (Hrange' & _ & _).
  split; [exact Hevolves|]. split; [exact Hnodup|]. split; [exact Hrange|].
  split; [exact Hrange'|]. vm_compute. reflexivity.
Defined.



(** When the preparation of the onboarding message fails, the run still
    returns and commits level 0, but no message was sent. *)
Lemma unprepared_onboarding_sends_nothing :
  let realm := org 1 None None in
  let w := world [realm] [] 0 in
  exists w',
    @send_zulip_update_announcements_to_realm Unprepared.collaborators realm false false w
    = Returned tt w'
    /\ map zulip_update_announcements_level (realms w') = [Some 0]
    /\ List.length (audit_logs w') = 1%nat
    /\ messages w' = [].
Proof.
  cbv zeta. eexists. split; [vm_compute; reflexivity|].
  split; [reflexivity|]. split; reflexivity.
Qed.

(** When the preparation of the stream messages fails, the catch-up run
    still returns and commits the latest level, but no message was sent. *)
Lemma unprepared_catch_up_sends_nothing :
  let realm := org 1 (Some 2) (Some announce) in
  let w := world [realm] [] 0 in
  exists w',
    @send_zulip_update_announcements_to_realm Unprepared.collaborators realm false false w
    = Returned tt w'
    /\ map zulip_update_announcements_level (realms w') = [Some latestLevel]
    /\ messages w' = [].
Proof.
  cbv zeta. eexists. split; [vm_compute; reflexivity|]. split; reflexivity.
Qed.

End Scenarios.

(** ** Further properties on the concrete deployments *)

Module MoreScenarios.
Import Demo.

Section Flaky.
#[local] Existing Instance Demo.collaborators.

(** The thresholds 3 and 6 on the mixed table. *)
Lemma selector_monotone_witness :
  3 <= 6
  /\ exists rs rs',
       get_realms_behind_zulip_update_announcements_level 3 Reliable.mixed_table
       = Returned rs Reliable.mixed_table
       /\ get_realms_behind_zulip_update_announcements_level 6 Reliable.mixed_table
          = Returned rs' Reliable.mixed_table
       /\ (forall r, In r rs -> In r rs').
Proof.
  assert (Hle : 3 <= 6) by discriminate.
  split; [exact Hle|].
  destruct (selector_monotone 3 6 Reliable.mixed_table Hle)
    as (rs & rs' & Hrs & Hrs' & Hincl & _).
  exists rs, rs'. split; [exact Hrs|]. split; [exact Hrs'|exact Hincl].
Defined.

(** A stale object that claims level 0 and no channel, for a row at level 5
    with a channel. *)
Lemma run_ignores_stale_object_witness :
  let row := org 1 (Some 5) (Some announce) in
  let stale := org 1 (Some 0) None in
  let w := world [row] [] 0 in
  realm_id stale = realm_id row
  /\ send_zulip_update_announcements_to_realm stale false false w
     = send_zulip_update_announcements_to_realm row false false w.
Proof.
  intros row stale w.
  assert (Hid : realm_id stale = realm_id row) by reflexivity.
  split; [exact Hid|].
  exact (proj1 (run_ignores_stale_object stale row false false [] w Hid)).
Defined.

(** An organization at level 3 with a channel. *)
Lemma flags_matter_in_one_branch_each_witness :
  let realm := org 1 (Some 3) (Some announce) in
  let w := world [realm] [] 0 in
  stored w realm = Some realm
  /\ send_zulip_update_announcements_to_realm realm true false w
     = send_zulip_update_announcements_to_realm realm false false w
  /\ send_zulip_update_announcements_to_realm realm false true w
     = send_zulip_update_announcements_to_realm realm false false w.
Proof.
  intros realm w.
  assert (Hstored : stored w realm = Some realm) by reflexivity.
  destruct (flags_matter_in_one_branch_each realm realm false false w Hstored)
    as [Hskip Himported].
  split; [exact Hstored|]. split.
  - apply Hskip. left. discriminate.
  - apply Himported. discriminate.
Defined.

(** From level 1 to level 6 through level 4. *)
Lemma catch_up_batches_compose_witness :
  let realm := org 1 (Some 1) (Some announce) in
  zulip_update_announcements_stream realm = Some announce
  /\ 0 <= 1 /\ 1 <= 4 /\ 4 <= 6 /\ 6 <= latestLevel
  /\ exists first second,
       internal_prep_zulip_update_announcements_stream_messages 1 4 notification_bot realm
       = inr first
       /\ internal_prep_zulip_update_announcements_stream_messages 4 6 notification_bot realm
          = inr second
       /\ internal_prep_zulip_update_announcements_stream_messages 1 6 notification_bot realm
          = inr (first ++ second)
       /\ Z.of_nat (List.length (first ++ second)) = 6 - 1.
Proof.
  intros realm.
  assert (H01 : 0 <= 1) by discriminate.
  assert (H14 : 1 <= 4) by discriminate.
  assert (H46 : 4 <= 6) by discriminate.
  assert (H6 : 6 <= latestLevel) by discriminate.
  split; [reflexivity|]. split; [exact H01|]. split; [exact H14|]. split; [exact H46|].
  split; [exact H6|].
  exact (catch_up_batches_compose 1 4 6 notification_bot realm announce
           eq_refl H01 H14 H46 H6).
Defined.

(** A commit for an organization whose row was deleted. *)
Lemma commit_without_row_rolls_back_witness :
  let w := world [org 1 (Some 2) (Some announce)] [] 0 in
  let reqs := [internal_prep_group_direct_message_for_old_realm Reliable.deleted
                 notification_bot] in
  existsb (fun r => realm_id r =? realm_id Reliable.deleted) (realms w) = false
  /\ transport_failure (prepared reqs) (messages w) = None
  /\ send_messages_and_update_level Reliable.deleted 6 reqs w = Raised DatabaseError w
  /\ List.length (messages (state_of (do_send_messages reqs w))) = 1%nat.
Proof.
  intros w reqs.
  assert (Hgone : existsb (fun r => realm_id r =? realm_id Reliable.deleted) (realms w)
                  = false) by reflexivity.
  assert (Hsend : transport_failure (prepared reqs) (messages w) = None) by reflexivity.
  destruct (commit_without_row_rolls_back Reliable.deleted 6 reqs w Hgone Hsend)
    as [Hraise Hstored].
  split; [exact Hgone|]. split; [exact Hsend|]. split; [exact Hraise|].
  rewrite Hstored by discriminate. reflexivity.
Defined.

(** A sweep over the mixed table: the deactivated organization keeps
    level 1. *)
Lemma sweep_leaves_unselected_untouched_witness :
  let w := Reliable.mixed_table in
  let w' := state_of (send_zulip_update_announcements true w) in
  NoDup (map realm_id (realms w))
  /\ In Reliable.dormant (realms w)
  /\ eligible Reliable.dormant = false
  /\ stored w' Reliable.dormant = Some Reliable.dormant
  /\ map zulip_update_announcements_level (realms w') = [Some 6; Some 1; None].
Proof.
  intros w w'.
  assert (Hnodup : NoDup (map realm_id (realms w))).
  { cbn. repeat constructor; cbn; intuition discriminate. }
  assert (Hin : In Reliable.dormant (realms w)) by (right; left; reflexivity).
  assert (Hnot : eligible Reliable.dormant = false) by reflexivity.
  destruct (sweep_leaves_unselected_untouched true w Reliable.dormant Hnodup Hin Hnot)
    as [Hrow _].
  split; [exact Hnodup|]. split; [exact Hin|]. split; [exact Hnot|].
  split; [exact Hrow|]. vm_compute. reflexivity.
Defined.

(** The onboarding event of an organization survives two sweeps. *)
Lemma onboarding_event_is_permanent_witness :
  let realm := org 1 (Some 0) (Some announce) in
  let w := world [realm] [onboarded 1 0 0] (25 * hour) in
  let w' := run_all [Sweep false; Sweep true] w in
  evolves w w'
  /\ onboarding_event w realm = Some (onboarded 1 0 0)
  /\ onboarding_event w' realm = Some (onboarded 1 0 0)
  /\ List.length (audit_logs w') = 2%nat.
Proof.
  intros realm w w'.
  assert (Hevolves : evolves w w') by apply run_all_evolves.
  assert (Hevent : onboarding_event w realm = Some (onboarded 1 0 0)) by reflexivity.
  split; [exact Hevolves|]. split; [exact Hevent|]. split.
  - exact (onboarding_event_is_permanent w w' realm (onboarded 1 0 0) Hevolves Hevent).
  - vm_compute. reflexivity.
Defined.

(** Onboarding an organization with a channel, then running again. *)
Lemma onboarding_commit_opens_the_windows_witness :
  let realm := org 1 None (Some announce) in
  let w := world [realm] [] (5 * hour) in
  let w' := state_of (send_zulip_update_announcements_to_realm realm false false w) in
  stored w realm = Some realm
  /\ zulip_update_announcements_level realm = None
  /\ onboarding_event w realm = None
  /\ send_zulip_update_announcements_to_realm realm false false w = Returned tt w'
  /\ stored w' realm = Some (with_level realm (Some 0))
  /\ send_zulip_update_announcements_to_realm realm false false w' = Returned tt w'.
Proof.
  intros realm w w'.
  assert (Hstored : stored w realm = Some realm) by reflexivity.
  assert (Hevent : onboarding_event w realm = None) by reflexivity.
  assert (Hrun : send_zulip_update_announcements_to_realm realm false false w
                 = Returned tt w') by (vm_compute; reflexivity).
  destruct (onboarding_commit_opens_the_windows realm realm false w w'
              Hstored eq_refl Hevent Hrun) as (_ & Hrow & Hwait).
  split; [exact Hstored|]. split; [reflexivity|]. split; [exact Hevent|].
  split; [exact Hrun|]. split; [exact Hrow|apply Hwait].
Defined.

(** Exactly one day after the onboarding event. *)
Lemma delay_check_bounds_witness :
  let realm := org 1 (Some 0) (Some announce) in
  let w := world [realm] [onboarded 1 0 0] (24 * hour) in
  onboarding_event w realm = Some (onboarded 1 0 0)
  /\ - timedelta_max_days <= 1 <= timedelta_max_days
  /\ now w = event_time (onboarded 1 0 0) + 1 * 86400000000
  /\ is_group_direct_message_sent_to_admins_within_days realm 1 w = Returned false w
  /\ is_group_direct_message_sent_to_admins_within_days realm 7 w = Returned true w.
Proof.
  intros realm w.
  assert (Hevent : onboarding_event w realm = Some (onboarded 1 0 0)) by reflexivity.
  assert (Hdays : - timedelta_max_days <= 1 <= timedelta_max_days)
    by (split; discriminate).
  assert (Hexact : now w = event_time (onboarded 1 0 0) + 1 * 86400000000) by reflexivity.
  destruct (delay_check_bounds realm 1 (onboarded 1 0 0) w Hevent Hdays) as (_ & Hedge & _).
  split; [exact Hevent|]. split; [exact Hdays|]. split; [exact Hexact|].
  split; [exact (Hedge Hexact)|]. reflexivity.
Defined.

(** Six days and eight days after onboarding without a channel. *)
Lemma unconfigured_organization_forfeits_witness :
  let realm := org 1 None None in
  let w := world [realm] [] 0 in
  let w1 := state_of (send_zulip_update_announcements_to_realm realm false false w) in
  stored w realm = Some realm
  /\ zulip_update_announcements_level realm = None
  /\ zulip_update_announcements_stream realm = None
  /\ onboarding_event w realm = None
  /\ send_zulip_update_announcements_to_realm realm false false w = Returned tt w1
  /\ 6 * 24 * hour < timedelta 7
  /\ timedelta 7 <= 8 * 24 * hour
  /\ send_zulip_update_announcements_to_realm realm true false
       (advance_clock (6 * 24 * hour) w1)
     = Returned tt (advance_clock (6 * 24 * hour) w1)
  /\ send_zulip_update_announcements_to_realm realm false false
       (advance_clock (8 * 24 * hour) w1)
     = Returned tt (atomic_commit (with_level realm (Some 0)) latestLevel []
                      (advance_clock (8 * 24 * hour) w1)).
Proof.
  intros realm w w1.
  assert (Hstored : stored w realm = Some realm) by reflexivity.
  assert (Hevent : onboarding_event w realm = None) by reflexivity.
  assert (Hrun : send_zulip_update_announcements_to_realm realm false false w
                 = Returned tt w1) by (vm_compute; reflexivity).
  assert (Hearly : 6 * 24 * hour < timedelta 7) by reflexivity.
  assert (Hlate : timedelta 7 <= 8 * 24 * hour) by discriminate.
  destruct (unconfigured_organization_forfeits realm realm false (6 * 24 * hour) w w1
              Hstored eq_refl eq_refl Hevent Hrun) as [Hwait _].
  destruct (unconfigured_organization_forfeits realm realm false (8 * 24 * hour) w w1
              Hstored eq_refl eq_refl Hevent Hrun) as [_ Hadvance].
  split; [exact Hstored|]. split; [reflexivity|]. split; [reflexivity|].
  split; [exact Hevent|]. split; [exact Hrun|]. split; [exact Hearly|].
  split; [exact Hlate|]. split; [exact (Hwait Hearly true false)|].
  exact (proj1 (Hadvance Hlate false false)).
Defined.

End Flaky.


End MoreScenarios.
